(** * Verification model of [scripts/validate-pr.py]

    The script validates genesis-ceremony registration files (accounts,
    validators, bonds) that contributors add under [transactions/].  This
    development embeds the script as Rocq functions, one per Python function
    and with the same names, and proves properties of them.

    Conventions of the embedding.

    - A Python object that can come out of [toml.load] is a [value]; [None]
      is a value too, because [read_unsafe_toml] returns it.  A dictionary is
      an association list in insertion order (a TOML table has no repeated
      key); [lookup] returns the first binding.
    - A Python [str] is a Rocq [string] with the same code points; the model
      covers the strings whose code points are below 256.
    - A Python [float] is a primitive binary64 [float]; a Python [int] is a
      [Z].
    - A Python expression that may raise is a [result]: [Ok v] or [Raise e].
    - A function that prints or reads files returns the [event]s it caused,
      in order, next to its result.
    - The balances table, the one object that is shared between
      [validate_toml] and a validator, is also modelled as state of the bond
      check ([on_table]), to show that the check leaves it as it found it.
    - What the script imports and this repository does not contain is a
      field of [Runtime] ([float] applied to a [str], [bech32m.bech32_decode])
      or of [world] (the file system seen through [toml.load], the
      environment, the output of [git diff]).  The two regular expressions of
      the script are interpreted by a small matcher. *)

From Stdlib Require Import ZArith List String Ascii Bool Lia Permutation.
From Stdlib Require Import Floats.
Import ListNotations.
Open Scope string_scope.
Open Scope Z_scope.

(** ** Exceptions and results *)

Inductive exn : Type :=
| KeyError
| TypeError
| ValueError
| OverflowError
| IndexError
| LoadError          (* [open] or [toml.load] raised *)
| SystemExit (code : Z).

Inductive result (A : Type) : Type :=
| Ok (a : A)
| Raise (e : exn).
Arguments Ok {A} a.
Arguments Raise {A} e.

Definition bind {A B : Type} (m : result A) (k : A -> result B) : result B :=
  match m with
  | Ok a => k a
  | Raise e => Raise e
  end.

Notation "x <- m ;; k" := (bind m (fun x => k))
  (at level 61, m at next level, right associativity).

(** ** Python values *)

Set Warnings "-register-all".

Inductive value : Type :=
| VNone
| VBool (b : bool)
| VInt (n : Z)
| VFloat (f : float)
| VStr (s : string)
| VDatetime (iso : string)
| VList (xs : list value)
| VDict (kvs : list (string * value)).

Definition dict : Type := list (string * value).

Fixpoint lookup {A : Type} (k : string) (d : list (string * A)) : option A :=
  match d with
  | [] => None
  | (k', v) :: d' => if String.eqb k k' then Some v else lookup k d'
  end.

Definition has_key {A : Type} (k : string) (d : list (string * A)) : bool :=
  match lookup k d with Some _ => true | None => false end.

(** ** Strings *)

Fixpoint is_prefix (p s : string) : bool :=
  match p, s with
  | EmptyString, _ => true
  | String a p', String b s' => Ascii.eqb a b && is_prefix p' s'
  | String _ _, EmptyString => false
  end.

(** [p in s] for two strings. *)
Fixpoint is_substring (p s : string) : bool :=
  is_prefix p s ||
  match s with
  | EmptyString => false
  | String _ s' => is_substring p s'
  end.

(** The one-character strings of [s], what iterating over a [str] yields. *)
Fixpoint chars (s : string) : list string :=
  match s with
  | EmptyString => []
  | String c s' => String c EmptyString :: chars s'
  end.

Definition code (c : ascii) : Z := Z.of_N (N_of_ascii c).

(** [str.lower] on code points below 256: A-Z, and the Latin-1 capitals
    0xC0-0xDE except the multiplication sign 0xD7. *)
Definition lower_char (c : ascii) : ascii :=
  let n := code c in
  if ((65 <=? n) && (n <=? 90)) || ((192 <=? n) && (n <=? 222) && negb (n =? 215))
  then ascii_of_N (Z.to_N (n + 32))
  else c.

Fixpoint lower (s : string) : string :=
  match s with
  | EmptyString => EmptyString
  | String c s' => String (lower_char c) (lower s')
  end.

(** [s.split(sep)] for a one-character separator: [acc] holds the piece
    read so far. *)
Fixpoint split_aux (sep : ascii) (s : string) (acc : string) : list string :=
  match s with
  | EmptyString => [acc]
  | String c s' =>
      if Ascii.eqb c sep then acc :: split_aux sep s' EmptyString
      else split_aux sep s' (acc ++ String c EmptyString)
  end.

Definition split (sep : ascii) (s : string) : list string :=
  split_aux sep s EmptyString.

(** Decimal text of a natural number, for [str.format] on a length. *)
Fixpoint digits_fuel (fuel : nat) (n : nat) (acc : string) : string :=
  match fuel with
  | O => acc
  | S fuel' =>
      let d := ascii_of_nat (48 + Nat.modulo n 10) in
      let acc' := String d acc in
      match Nat.div n 10 with
      | O => acc'
      | q => digits_fuel fuel' q acc'
      end
  end.

Definition string_of_nat (n : nat) : string := digits_fuel (S n) n EmptyString.

(** ** Numbers

    [bool], [int] and [float] compare with one another by their exact
    mathematical value; a comparison with a NaN is unordered. *)

Inductive num : Type :=
| NInt (n : Z)
| NFloat (f : float).

Definition as_num (v : value) : option num :=
  match v with
  | VBool b => Some (NInt (if b then 1 else 0))
  | VInt n => Some (NInt n)
  | VFloat f => Some (NFloat f)
  | _ => None
  end.

(** The integer [n] against the binary64 number [x], exactly. *)
Definition compare_Z_SF (n : Z) (x : spec_float) : option comparison :=
  match x with
  | S754_nan => None
  | S754_zero _ => Some (n ?= 0)
  | S754_infinity s => Some (if s then Gt else Lt)
  | S754_finite s m e =>
      let sm := if s then Z.neg m else Z.pos m in
      Some (if 0 <=? e then n ?= sm * 2 ^ e else n * 2 ^ (- e) ?= sm)
  end.

Definition num_compare (x y : num) : option comparison :=
  match x, y with
  | NInt a, NInt b => Some (a ?= b)
  | NInt a, NFloat g => compare_Z_SF a (Prim2SF g)
  | NFloat f, NInt b => option_map CompOpp (compare_Z_SF b (Prim2SF f))
  | NFloat f, NFloat g =>
      match PrimFloat.compare f g with
      | FEq => Some Eq
      | FLt => Some Lt
      | FGt => Some Gt
      | FNotComparable => None
      end
  end.

Definition num_eq (x y : num) : bool :=
  match num_compare x y with Some Eq => true | _ => false end.
Definition num_lt (x y : num) : bool :=
  match num_compare x y with Some Lt => true | _ => false end.
Definition num_le (x y : num) : bool :=
  match num_compare x y with Some Lt | Some Eq => true | _ => false end.
Definition num_ge (x y : num) : bool :=
  match num_compare x y with Some Gt | Some Eq => true | _ => false end.

(** [float(n)] for an [int]: the nearest binary64 number, ties to even;
    [OverflowError] when that is not finite. *)
Definition float_of_Z (n : Z) : result float :=
  match binary_normalize prec emax n 0 false with
  | S754_infinity _ => Raise OverflowError
  | x => Ok (SF2Prim x)
  end.

(** ** The imported functions *)

Class Runtime : Type := {
  (** [float(s)] for a [str]: [None] stands for [ValueError]. *)
  float_of_str : string -> option float;
  (** The first component of [bech32m.bech32_decode(x)]: the human-readable
      part, or [None] when the library answers [(None, None, None)]. *)
  bech32_decode : value -> result (option string)
}.

(** ** Python operators on values *)

(** [x == y]. *)
Fixpoint py_eq (x y : value) {struct x} : bool :=
  match x, y with
  | VNone, VNone => true
  | VStr a, VStr b => String.eqb a b
  | VDatetime a, VDatetime b => String.eqb a b
  | VList xs, VList ys =>
      (fix all2 (xs : list value) (ys : list value) {struct xs} : bool :=
         match xs, ys with
         | [], [] => true
         | x' :: xs', y' :: ys' => py_eq x' y' && all2 xs' ys'
         | _, _ => false
         end) xs ys
  | VDict d, VDict d' =>
      (Nat.eqb (List.length d) (List.length d')) &&
      (fix sub (d : list (string * value)) {struct d} : bool :=
         match d with
         | [] => true
         | (k, v) :: r =>
             match lookup k d' with
             | Some v' => py_eq v v' && sub r
             | None => false
             end
         end) d
  | _, _ =>
      match as_num x, as_num y with
      | Some a, Some b => num_eq a b
      | _, _ => false
      end
  end.

(** [bool(v)]. *)
Definition py_truthy (v : value) : bool :=
  match v with
  | VNone => false
  | VBool b => b
  | VInt n => negb (n =? 0)
  | VFloat f => negb (num_eq (NFloat f) (NInt 0))
  | VStr s => negb (String.eqb s "")
  | VDatetime _ => true
  | VList xs => match xs with [] => false | _ => true end
  | VDict d => match d with [] => false | _ => true end
  end.

(** [key in container]. *)
Definition py_contains (key container : value) : result bool :=
  match container with
  | VDict d =>
      match key with
      | VStr k => Ok (has_key k d)
      | VList _ | VDict _ => Raise TypeError       (* unhashable *)
      | _ => Ok false
      end
  | VList xs => Ok (existsb (py_eq key) xs)
  | VStr s =>
      match key with
      | VStr k => Ok (is_substring k s)
      | _ => Raise TypeError
      end
  | _ => Raise TypeError                            (* not iterable *)
  end.

Definition index_of (i : Z) (len : nat) : option nat :=
  let n := Z.of_nat len in
  if (0 <=? i) && (i <? n) then Some (Z.to_nat i)
  else if (- n <=? i) && (i <? 0) then Some (Z.to_nat (i + n))
  else None.

(** [container[key]]. *)
Definition py_getitem (container key : value) : result value :=
  match container with
  | VDict d =>
      match key with
      | VStr k => match lookup k d with Some v => Ok v | None => Raise KeyError end
      | VList _ | VDict _ => Raise TypeError       (* unhashable *)
      | _ => Raise KeyError
      end
  | VList xs =>
      match key with
      | VInt _ | VBool _ =>
          let i := match key with VInt n => n | VBool true => 1 | _ => 0 end in
          match index_of i (List.length xs) with
          | Some n => match nth_error xs n with Some v => Ok v | None => Raise IndexError end
          | None => Raise IndexError
          end
      | _ => Raise TypeError
      end
  | VStr s =>
      match key with
      | VInt _ | VBool _ =>
          let i := match key with VInt n => n | VBool true => 1 | _ => 0 end in
          match index_of i (String.length s) with
          | Some n => match nth_error (chars s) n with Some c => Ok (VStr c) | None => Raise IndexError end
          | None => Raise IndexError
          end
      | _ => Raise TypeError
      end
  | _ => Raise TypeError                            (* not subscriptable *)
  end.

(** [len(v)]. *)
Definition py_len (v : value) : result Z :=
  match v with
  | VList xs => Ok (Z.of_nat (List.length xs))
  | VDict d => Ok (Z.of_nat (List.length d))
  | VStr s => Ok (Z.of_nat (String.length s))
  | _ => Raise TypeError
  end.

(** The elements [for x in v] visits. *)
Definition py_iter (v : value) : result (list value) :=
  match v with
  | VList xs => Ok xs
  | VDict d => Ok (map (fun kv => VStr (fst kv)) d)
  | VStr s => Ok (map VStr (chars s))
  | _ => Raise TypeError
  end.

(** [x < v], [v <= y] and the like with a number on one side: [TypeError]
    when the other side is not a number. *)
Definition py_num_op (op : num -> num -> bool) (x y : value) : result bool :=
  match as_num x, as_num y with
  | Some a, Some b => Ok (op a b)
  | _, _ => Raise TypeError
  end.

(** [float(v)]. *)
Definition py_float `{Runtime} (v : value) : result float :=
  match v with
  | VFloat f => Ok f
  | VInt n => float_of_Z n
  | VBool b => Ok (if b then one else zero)
  | VStr s => match float_of_str s with Some f => Ok f | None => Raise ValueError end
  | _ => Raise TypeError
  end.

(** ** Regular expressions

    The fragment of [re] the script's two patterns use, matched by
    derivatives. *)

Inductive regex : Type :=
| RNone                              (* matches nothing *)
| REps                               (* the empty string *)
| RChar (p : ascii -> bool)          (* one character of a class *)
| RCat (r1 r2 : regex)
| RAlt (r1 r2 : regex)
| RStar (r : regex).

Fixpoint nullable (r : regex) : bool :=
  match r with
  | RNone => false
  | REps => true
  | RChar _ => false
  | RCat r1 r2 => nullable r1 && nullable r2
  | RAlt r1 r2 => nullable r1 || nullable r2
  | RStar _ => true
  end.

Definition cat (r1 r2 : regex) : regex :=
  match r1, r2 with
  | RNone, _ => RNone
  | _, RNone => RNone
  | REps, _ => r2
  | _, _ => RCat r1 r2
  end.

Definition alt (r1 r2 : regex) : regex :=
  match r1, r2 with
  | RNone, _ => r2
  | _, RNone => r1
  | _, _ => RAlt r1 r2
  end.

Fixpoint deriv (c : ascii) (r : regex) : regex :=
  match r with
  | RNone => RNone
  | REps => RNone
  | RChar p => if p c then REps else RNone
  | RCat r1 r2 =>
      alt (cat (deriv c r1) r2) (if nullable r1 then deriv c r2 else RNone)
  | RAlt r1 r2 => alt (deriv c r1) (deriv c r2)
  | RStar r1 => cat (deriv c r1) (RStar r1)
  end.

(** The whole of [s] matches [r]. *)
Fixpoint matches (r : regex) (s : string) : bool :=
  match s with
  | EmptyString => nullable r
  | String c s' => matches (deriv c r) s'
  end.

Definition newline : ascii := ascii_of_nat 10.

(** The white space of [str] patterns, below code point 256. *)
Definition is_space (c : ascii) : bool :=
  let n := code c in
  ((9 <=? n) && (n <=? 13)) || ((28 <=? n) && (n <=? 32)) || (n =? 133) || (n =? 160).

Definition any_char : regex := RChar (fun _ => true).
Definition dot : regex := RChar (fun c => negb (Ascii.eqb c newline)).
Definition non_space : regex := RChar (fun c => negb (is_space c)).
Definition plus (r : regex) : regex := RCat r (RStar r).

Fixpoint lit (s : string) : regex :=
  match s with
  | EmptyString => REps
  | String c s' => RCat (RChar (Ascii.eqb c)) (lit s')
  end.

(** [re.search(r, s)] is not [None], for a pattern without anchors: some
    substring of [s] matches. *)
Definition re_search (r : regex) (s : string) : bool :=
  matches (RCat (RStar any_char) (RCat r (RStar any_char))) s.

(** [re.search] of the pattern [r] between a caret and a dollar is not
    [None]: the match starts at the first character, and ends at the end of
    [s] or before a newline that ends [s]. *)
Definition re_search_anchored (r : regex) (s : string) : bool :=
  matches (RCat r (RAlt REps (RChar (Ascii.eqb newline)))) s.

(** The pattern of the script's [FILE_NAME_PATTER]: the text
    [transactions/], any characters but a newline, a hyphen, one of the three
    kinds, any one character but a newline, and [toml].  Its source text is
    [FILE_NAME_PATTER_text]. *)
Definition FILE_NAME_PATTER : regex :=
  RCat (lit "transactions/")
    (RCat (RStar dot)
       (RCat (lit "-")
          (RCat (RAlt (lit "validator") (RAlt (lit "bond") (lit "account")))
             (RCat dot (lit "toml"))))).

Definition FILE_NAME_PATTER_text : string :=
  "transactions/(.*)-(validator|bond|account).toml".

(** The pattern of the script's [EMAIL_PATTERN] between its anchors:
    one or more non-blanks, an at sign, one or more non-blanks, a dot, one or
    more non-blanks.  The anchors are left to [re_search_anchored]. *)
Definition EMAIL_PATTERN : regex :=
  RCat (plus non_space)
    (RCat (lit "@") (RCat (plus non_space) (RCat (lit ".") (plus non_space)))).

(** [re.search(EMAIL_PATTERN, email)] is not [None]. *)
Definition search_email (email : value) : result bool :=
  match email with
  | VStr s => Ok (re_search_anchored EMAIL_PATTERN s)
  | _ => Raise TypeError
  end.

(** ** Statements that may return

    The body of a validator is a list of statements, each of which either
    returns from the function ([Some b]: [return b]) or falls through to the
    next one ([None]); evaluating it may raise. *)

Definition stmt : Type := result (option bool).

Definition next : stmt := Ok None.
Definition ret_false : stmt := Ok (Some false).

(** [if c: return False] *)
Definition return_false_if (c : bool) : stmt :=
  if c then ret_false else next.

Definition seq (s : stmt) (k : stmt) : stmt :=
  r <- s ;;
  match r with
  | Some b => Ok (Some b)
  | None => k
  end.

Notation "s ;;; k" := (seq s k) (at level 60, right associativity).

(** [for x in xs: body x] *)
Fixpoint for_each {A : Type} (body : A -> stmt) (xs : list A) : stmt :=
  match xs with
  | [] => next
  | x :: xs' => body x ;;; for_each body xs'
  end.

(** A function body that ends with [return True]. *)
Definition returning_true (s : stmt) : result bool :=
  r <- s ;;
  Ok (match r with Some b => b | None => true end).

Definition hrp_is (hrp : option string) (s : string) : bool :=
  match hrp with
  | Some h => String.eqb h s
  | None => false
  end.

(** ** The validators *)

Section Validators.
Context `{RT : Runtime}.

(** [for field in fields: if field not in obj: return False] *)
Definition require_fields (fields : list string) (obj : value) : stmt :=
  for_each
    (fun field =>
       present <- py_contains (VStr field) obj ;;
       return_false_if (negb present))
    fields.

(** [hrp, _, _ = bech32m.bech32_decode(x)] followed by
    [if not hrp == expected: return False]. *)
Definition require_hrp (x : value) (expected : string) : stmt :=
  hrp <- bech32_decode x ;;
  return_false_if (negb (hrp_is hrp expected)).

(** The body of the loop of [check_if_account_is_valid]. *)
Definition account_body (account : value) : stmt :=
  require_fields ["vp"; "threshold"; "public_keys"] account ;;;
  (vp <- py_getitem account (VStr "vp") ;;
   threshold <- py_getitem account (VStr "threshold") ;;
   public_keys <- py_getitem account (VStr "public_keys") ;;
   return_false_if (negb (py_eq vp (VStr "vp_user"))) ;;;
   (n <- py_len public_keys ;;
    too_few <- py_num_op num_lt (VInt n) threshold ;;
    return_false_if too_few) ;;;
   (non_positive <- py_num_op num_le threshold (VInt 0) ;;
    return_false_if non_positive) ;;;
   (keys <- py_iter public_keys ;;
    for_each (fun public_key => require_hrp public_key "tnam") keys)).

Definition check_if_account_is_valid (accounts_toml : value) : result bool :=
  returning_true
    (accounts <- py_getitem accounts_toml (VStr "established_account") ;;
     entries <- py_iter accounts ;;
     for_each account_body entries).

Definition validator_fields : list string :=
  ["consensus_key"; "protocol_key"; "tendermint_node_key"; "eth_hot_key";
   "eth_cold_key"; "metadata"; "signatures"; "address"; "vp";
   "commission_rate"; "max_commission_rate_change"].

Definition key_fields : list string :=
  ["consensus_key"; "protocol_key"; "tendermint_node_key"; "eth_hot_key";
   "eth_cold_key"].

(** [for field in fields: for sub_field in sub_fields:
       if sub_field not in obj[field]: return False] *)
Definition require_sub_fields (fields sub_fields : list string) (obj : value) : stmt :=
  for_each
    (fun field =>
       for_each
         (fun sub_field =>
            inner <- py_getitem obj (VStr field) ;;
            present <- py_contains (VStr sub_field) inner ;;
            return_false_if (negb present))
         sub_fields)
    fields.

(** [not 0 <= x <= 1] *)
Definition outside_unit_interval (x : float) : bool :=
  negb (num_le (NInt 0) (NFloat x) && num_le (NFloat x) (NInt 1)).

(** The body of the loop of [check_if_validator_is_valid]. *)
Definition validator_body (validator : value) : stmt :=
  require_fields validator_fields validator ;;;
  require_sub_fields key_fields ["pk"; "authorization"] validator ;;;
  require_sub_fields ["metadata"] ["email"] validator ;;;
  (signatures <- py_getitem validator (VStr "signatures") ;;
   n <- py_len signatures ;;
   return_false_if (n <=? 0)) ;;;
  (vp <- py_getitem validator (VStr "vp") ;;
   raw_rate <- py_getitem validator (VStr "commission_rate") ;;
   commission_rate <- py_float raw_rate ;;
   raw_change <- py_getitem validator (VStr "max_commission_rate_change") ;;
   max_commission_rate_change <- py_float raw_change ;;
   address <- py_getitem validator (VStr "address") ;;
   metadata <- py_getitem validator (VStr "metadata") ;;
   email <- py_getitem metadata (VStr "email") ;;
   return_false_if (negb (py_eq vp (VStr "vp_user"))) ;;;
   return_false_if (outside_unit_interval commission_rate) ;;;
   return_false_if (outside_unit_interval max_commission_rate_change) ;;;
   (found <- search_email email ;;
    return_false_if (negb found)) ;;;
   require_hrp address "tnam").

Definition check_if_validator_is_valid (validators_toml : value) : result bool :=
  is_valid <- check_if_account_is_valid validators_toml ;;
  if negb is_valid then Ok false
  else
    has_bond <- py_contains (VStr "bond") validators_toml ;;
    if has_bond then Ok false
    else
      returning_true
        (validators <- py_getitem validators_toml (VStr "validator_account") ;;
         entries <- py_iter validators ;;
         for_each validator_body entries).

(** [float(balances[source]) if source in balances else 0] *)
Definition balance_of (balances source : value) : result num :=
  recorded <- py_contains source balances ;;
  if recorded then
    raw <- py_getitem balances source ;;
    f <- py_float raw ;;
    Ok (NFloat f)
  else Ok (NInt 0).

(** [balance == 0 or not balance >= amount] *)
Definition balance_rejects (balance : num) (amount : float) : bool :=
  num_eq balance (NInt 0) || negb (num_ge balance (NFloat amount)).

(** The body of the loop of [check_if_bond_is_valid]. *)
Definition bond_body (balances : value) (bond : value) : stmt :=
  require_fields ["source"; "validator"; "amount"; "signatures"] bond ;;;
  (signatures <- py_getitem bond (VStr "signatures") ;;
   n <- py_len signatures ;;
   return_false_if (n <=? 0)) ;;;
  (source <- py_getitem bond (VStr "source") ;;
   validator <- py_getitem bond (VStr "validator") ;;
   raw_amount <- py_getitem bond (VStr "amount") ;;
   amount <- py_float raw_amount ;;
   balance <- balance_of balances source ;;
   return_false_if (balance_rejects balance amount) ;;;
   require_hrp source "tkpnam" ;;;
   require_hrp validator "tnam").

Definition check_if_bond_is_valid (bonds_toml balances : value) : result bool :=
  returning_true
    (bonds <- py_getitem bonds_toml (VStr "bond") ;;
     entries <- py_iter bonds ;;
     for_each (bond_body balances) entries).

End Validators.

(** ** The balances table as a mutable object

    [nam_balances] is a Python dictionary, a mutable object that
    [validate_toml] hands to [check_if_bond_is_valid].  Below, the bond check
    is read once more from the source with that object as state: a
    computation takes the table as it is and returns its result together
    with the table as it leaves it, also when it raises.  What the check does
    with the bond record itself, another object, does not touch the table. *)

Definition on_table (A : Type) : Type := value -> result A * value.

Definition t_ret {A : Type} (a : A) : on_table A := fun table => (Ok a, table).

(** A computation that does not use the table. *)
Definition t_lift {A : Type} (r : result A) : on_table A := fun table => (r, table).

Definition t_bind {A B : Type} (m : on_table A) (k : A -> on_table B) : on_table B :=
  fun table =>
    match m table with
    | (Ok a, table') => k a table'
    | (Raise e, table') => (Raise e, table')
    end.

Notation "x <== m ;; k" := (t_bind m (fun x => k))
  (at level 61, m at next level, right associativity).

(** [key in balances] and [balances[key]], the two uses the script makes of
    the table. *)
Definition table_contains (key : value) : on_table bool :=
  fun table => (py_contains key table, table).

Definition table_getitem (key : value) : on_table value :=
  fun table => (py_getitem table key, table).

Definition t_stmt : Type := on_table (option bool).

Definition t_seq (s k : t_stmt) : t_stmt :=
  r <== s ;;
  match r with
  | Some b => t_ret (Some b)
  | None => k
  end.

Notation "s >>> k" := (t_seq s k) (at level 60, right associativity).

Fixpoint t_for_each {A : Type} (body : A -> t_stmt) (xs : list A) : t_stmt :=
  match xs with
  | [] => t_ret None
  | x :: xs' => body x >>> t_for_each body xs'
  end.

Section BondOnTable.
Context `{RT : Runtime}.

(** [float(balances[source]) if source in balances else 0] *)
Definition balance_of_on (source : value) : on_table num :=
  recorded <== table_contains source ;;
  if recorded then
    raw <== table_getitem source ;;
    f <== t_lift (py_float raw) ;;
    t_ret (NFloat f)
  else t_ret (NInt 0).

(** The body of the loop of [check_if_bond_is_valid]. *)
Definition bond_body_on (bond : value) : t_stmt :=
  t_lift (require_fields ["source"; "validator"; "amount"; "signatures"] bond) >>>
  t_lift (signatures <- py_getitem bond (VStr "signatures") ;;
          n <- py_len signatures ;;
          return_false_if (n <=? 0)) >>>
  (source <== t_lift (py_getitem bond (VStr "source")) ;;
   validator <== t_lift (py_getitem bond (VStr "validator")) ;;
   raw_amount <== t_lift (py_getitem bond (VStr "amount")) ;;
   amount <== t_lift (py_float raw_amount) ;;
   balance <== balance_of_on source ;;
   t_lift (return_false_if (balance_rejects balance amount)) >>>
   t_lift (require_hrp source "tkpnam") >>>
   t_lift (require_hrp validator "tnam")).

Definition check_if_bond_is_valid_on (bonds_toml : value) : on_table bool :=
  r <== (bonds <== t_lift (py_getitem bonds_toml (VStr "bond")) ;;
         entries <== t_lift (py_iter bonds) ;;
         t_for_each bond_body_on entries) ;;
  t_ret (match r with Some b => b | None => true end).

End BondOnTable.

(** ** The outside world and the script's effects *)

Record world : Type := {
  (** [toml.load(open(path, "r"))]: the parsed document, always a
      dictionary, or [None] when opening or parsing raises. *)
  toml_load : string -> option dict;
  (** [os.environ.get(name)] *)
  environ : string -> option string;
  (** [git diff --name-only --diff-filter=<filter> origin/main]: the return
      code and the decoded lines of the standard output. *)
  git_diff : string -> Z * list string
}.

Inductive event : Type :=
| EvGit (filter : string)
| EvOpen (path : string)
| EvPrint (line : string).

(** A computation with effects: the events it caused, in order, and its
    result. *)
Definition io (A : Type) : Type := (list event * result A)%type.

Definition io_ret {A : Type} (a : A) : io A := ([], Ok a).

Definition io_bind {A B : Type} (m : io A) (k : A -> io B) : io B :=
  match m with
  | (t, Ok a) => let (t', r) := k a in ((t ++ t')%list, r)
  | (t, Raise e) => (t, Raise e)
  end.

Notation "x <~ m ;; k" := (io_bind m (fun x => k))
  (at level 61, m at next level, right associativity).

Definition lift {A : Type} (r : result A) : io A := ([], r).
Definition print (line : string) : io unit := ([EvPrint line], Ok tt).
Definition exit {A : Type} (status : Z) : io A := ([], Raise (SystemExit status)).
Definition pass : io unit := io_ret tt.

(** The truth value of what [os.environ.get] returns. *)
Definition env_truthy (x : option string) : bool :=
  match x with
  | Some s => negb (String.eqb s "")
  | None => false
  end.

Definition read_env (w : world) : io (option string * option string * option string) :=
  let can_apply_for_validators := environ w "CAN_ADD_VALIDATORS" in
  let can_apply_for_bonds := environ w "CAN_ADD_BONDS" in
  let can_apply_for_accounts := environ w "CAN_ADD_ACCOUNTS" in
  io_ret (can_apply_for_validators, can_apply_for_bonds, can_apply_for_accounts).

Definition run_git_diff (w : world) (filter : string) : io (Z * list string) :=
  ([EvGit filter], Ok (git_diff w filter)).

Definition check_no_deleted_or_modified_files (w : world) : io unit :=
  res <~ run_git_diff w "DM" ;;
  if fst res >? 0 then exit 1
  else
    let deleted_files := snd res in
    match deleted_files with
    | [] => pass
    | _ :: _ => exit 1
    end.

Definition get_all_created_files (w : world) : io (list string) :=
  res <~ run_git_diff w "A" ;;
  if fst res >? 0 then exit 1
  else io_ret (snd res).

(** [toml.load(open(path, "r"))] *)
Definition load_toml (w : world) (path : string) : io value :=
  ([EvOpen path],
   match toml_load w path with
   | Some d => Ok (VDict d)
   | None => Raise LoadError
   end).

Definition read_unsafe_toml (w : world) (file_path : string) : io value :=
  match load_toml w file_path with
  | (t, Ok v) => (t, Ok v)
  | (t, Raise _) => (t, Ok VNone)
  end.

Definition get_alias (w : world) : io string :=
  match environ w "ALIAS" with
  | None => exit 1
  | Some alias => io_ret alias
  end.

Section Dispatcher.
Context `{RT : Runtime}.

Definition is_none (v : value) : bool :=
  match v with VNone => true | _ => false end.

Definition not_valid (file : string) : string := file ++ " is NOT valid.".
Definition valid (file : string) : string := file ++ " is valid.".

(** [if c: print(line)] *)
Definition print_if (c : bool) (line : string) : io unit :=
  if c then print line else pass.

Definition validate_toml (w : world) (file : string)
    (can_apply_for_validators can_apply_for_bonds can_apply_for_accounts : option string)
    : io value :=
  balances <~ load_toml w "genesis/balances.toml" ;;
  token <~ lift (py_getitem balances (VStr "token")) ;;
  nam_balances <~ lift (py_getitem token (VStr "NAM")) ;;
  if is_substring "-account.toml" file && env_truthy can_apply_for_accounts then
    accounts_toml <~ read_unsafe_toml w file ;;
    _ <~ print_if (is_none accounts_toml) (not_valid file) ;;
    is_valid <~ lift (check_if_account_is_valid accounts_toml) ;;
    _ <~ print_if (negb is_valid) (not_valid file) ;;
    _ <~ print (valid file) ;;
    io_ret VNone
  else if is_substring "-validator.toml" file && env_truthy can_apply_for_validators then
    validators_toml <~ read_unsafe_toml w file ;;
    _ <~ print_if (is_none validators_toml) (not_valid file) ;;
    is_valid <~ lift (check_if_validator_is_valid validators_toml) ;;
    _ <~ print_if (negb is_valid) (not_valid file) ;;
    _ <~ print (valid file) ;;
    io_ret VNone
  else if is_substring "-bond.toml" file && env_truthy can_apply_for_bonds then
    bonds_toml <~ read_unsafe_toml w file ;;
    _ <~ print_if (negb (py_truthy bonds_toml)) (not_valid file) ;;
    is_valid <~ lift (check_if_bond_is_valid bonds_toml nam_balances) ;;
    _ <~ print_if (negb is_valid) (not_valid file) ;;
    _ <~ print (valid file) ;;
    io_ret VNone
  else io_ret (VBool false).

(** The body of the loop of [main]. *)
Definition main_body (w : world) (alias : string)
    (can_apply_for_validators can_apply_for_bonds can_apply_for_accounts : option string)
    (file : string) : io unit :=
  _ <~ (if re_search FILE_NAME_PATTER file then pass
        else
          _ <~ print (file ++ " doesn't match pattern " ++ FILE_NAME_PATTER_text) ;;
          exit 1) ;;
  second <~ lift (match nth_error (split "/"%char file) 1 with
                  | Some piece => Ok piece
                  | None => Raise IndexError
                  end) ;;
  let file_alias := hd "" (split "."%char second) in
  _ <~ (if negb (is_substring (lower alias) (lower file_alias)) then exit 1 else pass) ;;
  _ <~ print (file ++ " is allowed, checking if its valid...") ;;
  if is_substring "scripts" file || is_substring "yml" file then pass
  else
    _ <~ validate_toml w file can_apply_for_validators can_apply_for_bonds
           can_apply_for_accounts ;;
    pass.

Fixpoint io_for_each {A : Type} (body : A -> io unit) (xs : list A) : io unit :=
  match xs with
  | [] => pass
  | x :: xs' => _ <~ body x ;; io_for_each body xs'
  end.

Definition main (w : world) : io unit :=
  _ <~ check_no_deleted_or_modified_files w ;;
  flags <~ read_env w ;;
  let '(can_apply_for_validators, can_apply_for_bonds, can_apply_for_accounts) := flags in
  changed_files <~ get_all_created_files w ;;
  alias <~ get_alias w ;;
  _ <~ print ("Found " ++ string_of_nat (List.length changed_files) ++ " file changed/added.") ;;
  io_for_each
    (main_body w alias can_apply_for_validators can_apply_for_bonds can_apply_for_accounts)
    changed_files.

End Dispatcher.

(** ** A reference runtime

    Executable readings of the two imported functions, used by the closed
    examples below; the theorems are stated for every [Runtime]. *)

Module Bech32.

(** The reference decoder of BIP-173 and BIP-350. *)

Definition CHARSET : string := "qpzry9x8gf2tvdw0s3jn54khce6mua7l".

Definition generator : list Z :=
  [0x3b6a57b2; 0x26508e6d; 0x1ea119fa; 0x3d4233dd; 0x2a1462b3].

Definition BECH32M_CONST : Z := 0x2bc830a3.

Definition polymod_step (chk value : Z) : Z :=
  let top := Z.shiftr chk 25 in
  let chk' := Z.lxor (Z.shiftl (Z.land chk 0x1ffffff) 5) value in
  fold_left
    (fun c ig => if Z.testbit top (fst ig) then Z.lxor c (snd ig) else c)
    (combine [0; 1; 2; 3; 4] generator) chk'.

Definition polymod (values : list Z) : Z := fold_left polymod_step values 1.

Definition codes (s : string) : list Z := map code (list_ascii_of_string s).

Definition hrp_expand (hrp : string) : list Z :=
  (map (fun x => Z.shiftr x 5) (codes hrp) ++ [0] ++
   map (fun x => Z.land x 31) (codes hrp))%list.

Definition verify_checksum (hrp : string) (data : list Z) : bool :=
  let const := polymod (hrp_expand hrp ++ data)%list in
  (const =? 1) || (const =? BECH32M_CONST).

Fixpoint find (c : ascii) (s : string) (i : Z) : option Z :=
  match s with
  | EmptyString => None
  | String c' s' => if Ascii.eqb c c' then Some i else find c s' (i + 1)
  end.

Definition ascii_lower (c : ascii) : ascii :=
  let n := code c in
  if (65 <=? n) && (n <=? 90) then ascii_of_N (Z.to_N (n + 32)) else c.

Definition ascii_upper (c : ascii) : ascii :=
  let n := code c in
  if (97 <=? n) && (n <=? 122) then ascii_of_N (Z.to_N (n - 32)) else c.

Definition map_string (f : ascii -> ascii) (s : string) : string :=
  string_of_list_ascii (map f (list_ascii_of_string s)).

(** The position of the last ["1"] of [s], counted from [i]. *)
Fixpoint rfind_one (s : string) (i : Z) (last : option Z) : option Z :=
  match s with
  | EmptyString => last
  | String c s' =>
      rfind_one s' (i + 1) (if Ascii.eqb c "1"%char then Some i else last)
  end.

Fixpoint all_some {A : Type} (xs : list (option A)) : option (list A) :=
  match xs with
  | [] => Some []
  | Some x :: r => option_map (cons x) (all_some r)
  | None :: _ => None
  end.

(** The human-readable part of [bech], when [bech] is a valid Bech32 or
    Bech32m string. *)
Definition decode (bech : string) : option string :=
  let out_of_range := existsb (fun x => (x <? 33) || (126 <? x)) (codes bech) in
  let mixed :=
    negb (String.eqb (map_string ascii_lower bech) bech) &&
    negb (String.eqb (map_string ascii_upper bech) bech) in
  if out_of_range || mixed then None
  else
    let bech := map_string ascii_lower bech in
    let len := Z.of_nat (String.length bech) in
    match rfind_one bech 0 None with
    | None => None
    | Some pos =>
        if (pos <? 1) || (len <? pos + 7) || (90 <? len) then None
        else
          let hrp := substring 0 (Z.to_nat pos) bech in
          let tail := substring (Z.to_nat (pos + 1)) (Z.to_nat (len - pos - 1)) bech in
          match all_some (map (fun c => find c CHARSET 0) (list_ascii_of_string tail)) with
          | None => None
          | Some data => if verify_checksum hrp data then Some hrp else None
          end
    end.

Definition decode_value (x : value) : result (option string) :=
  match x with
  | VStr s => Ok (decode s)
  | _ => Raise TypeError
  end.

End Bech32.

Module PyFloat.

(** [float] applied to a [str]: blanks around the text are dropped, then a
    sign and either one of the words [inf], [infinity], [nan] in any case or
    a decimal number (digits with single underscores between them, a
    fraction, an exponent), rounded to the nearest binary64 number. *)

Definition is_digit (c : ascii) : bool :=
  let n := code c in (48 <=? n) && (n <=? 57).

Definition digit (c : ascii) : Z := code c - 48.

(** The digits that follow a digit: the number read so far, how many digits
    were read, and the rest of the text. *)
Fixpoint more_digits (s : string) (acc n : Z) : Z * Z * string :=
  match s with
  | String c s' =>
      if is_digit c then more_digits s' (10 * acc + digit c) (n + 1)
      else if Ascii.eqb c "_"%char then
        match s' with
        | String c' s'' =>
            if is_digit c' then more_digits s'' (10 * acc + digit c') (n + 1)
            else (acc, n, s)
        | EmptyString => (acc, n, s)
        end
      else (acc, n, s)
  | EmptyString => (acc, n, s)
  end.

Definition digitpart (s : string) (acc : Z) : option (Z * Z * string) :=
  match s with
  | String c s' =>
      if is_digit c then Some (more_digits s' (10 * acc + digit c) 1) else None
  | EmptyString => None
  end.

(** The digits of the number as one integer, the number of digits after the
    point, and the rest. *)
Definition mantissa (s : string) : option (Z * Z * string) :=
  match digitpart s 0 with
  | Some (m, _, r) =>
      match r with
      | String c r' =>
          if Ascii.eqb c "."%char then
            match digitpart r' m with
            | Some res => Some res
            | None => Some (m, 0, r')
            end
          else Some (m, 0, r)
      | EmptyString => Some (m, 0, r)
      end
  | None =>
      match s with
      | String c r' => if Ascii.eqb c "."%char then digitpart r' 0 else None
      | EmptyString => None
      end
  end.

Definition sign (s : string) : bool * string :=
  match s with
  | String c s' =>
      if Ascii.eqb c "-"%char then (true, s')
      else if Ascii.eqb c "+"%char then (false, s')
      else (false, s)
  | EmptyString => (false, s)
  end.

Definition exponent (s : string) : option (Z * string) :=
  match s with
  | String c r =>
      if Ascii.eqb c "e"%char || Ascii.eqb c "E"%char then
        let (neg, r') := sign r in
        match digitpart r' 0 with
        | Some (x, _, r'') => Some (if neg then - x else x, r'')
        | None => None
        end
      else Some (0, s)
  | EmptyString => Some (0, s)
  end.

(** The binary64 number nearest to [m * 10 ^ e10], with the sign [neg]. *)
Definition round_decimal (neg : bool) (m e10 : Z) : spec_float :=
  match m with
  | Z.pos p =>
      if 0 <=? e10 then
        if 400 <? e10 then S754_infinity neg
        else binary_normalize prec emax ((if neg then - m else m) * 10 ^ e10) 0 neg
      else if Z.log2 m / 3 + 1 + e10 <? -400 then S754_zero neg
      else
        match 10 ^ (- e10) with
        | Z.pos q => SFdiv prec emax (S754_finite neg p 0) (S754_finite false q 0)
        | _ => S754_nan
        end
  | _ => S754_zero neg
  end.

(** The blanks [float] drops around the text: tab to carriage return and
    the space, and of the other code points below 256 the two that are white
    space in Unicode, 0x85 and 0xA0.  The separators 0x1C to 0x1F are not
    dropped: a text that starts or ends with one is not a number. *)
Definition is_float_blank (c : ascii) : bool :=
  let n := code c in
  ((9 <=? n) && (n <=? 13)) || (n =? 32) || (n =? 133) || (n =? 160).

Fixpoint lstrip (s : string) : string :=
  match s with
  | String c s' => if is_float_blank c then lstrip s' else s
  | EmptyString => s
  end.

Fixpoint rstrip (s : string) : string :=
  match s with
  | String c s' =>
      match rstrip s' with
      | EmptyString => if is_float_blank c then EmptyString else String c EmptyString
      | r => String c r
      end
  | EmptyString => s
  end.

Definition parse_SF (text : string) : option spec_float :=
  let (neg, body) := sign (rstrip (lstrip text)) in
  let word := Bech32.map_string Bech32.ascii_lower body in
  if String.eqb word "inf" || String.eqb word "infinity" then Some (S754_infinity neg)
  else if String.eqb word "nan" then Some S754_nan
  else
    match mantissa body with
    | Some (m, k, r) =>
        match exponent r with
        | Some (x, EmptyString) => Some (round_decimal neg m (x - k))
        | _ => None
        end
    | None => None
    end.

Definition parse (text : string) : option float :=
  option_map SF2Prim (parse_SF text).

End PyFloat.

Definition reference_runtime : Runtime :=
  {| float_of_str := PyFloat.parse; bech32_decode := Bech32.decode_value |}.

(** ** Vocabulary of the properties *)

Section Shapes.
Context `{RT : Runtime}.

(** An [established_account] entry as the data model describes it: the
    three fields, the user predicate, an integer threshold between one and
    the number of keys, every key decoding with the prefix [tnam]. *)
Definition sound_account (account : value) : Prop :=
  exists d t keys,
    account = VDict d /\
    lookup "vp" d = Some (VStr "vp_user") /\
    lookup "threshold" d = Some (VInt t) /\
    lookup "public_keys" d = Some (VList keys) /\
    1 <= t <= Z.of_nat (List.length keys) /\
    Forall (fun k => bech32_decode k = Ok (Some "tnam")) keys.

(** A key slot that holds [pk] and [authorization]. *)
Definition key_slot (v : value) : Prop :=
  py_contains (VStr "pk") v = Ok true /\
  py_contains (VStr "authorization") v = Ok true.

(** A [validator_account] entry with everything the presence checks ask
    for: the five key slots with their two sub-fields, [metadata] with an
    [email], a non-empty [signatures] list, and the four remaining fields. *)
Definition validator_fields_present (d : dict) (vp raw_c raw_m address email : value)
    : Prop :=
  exists sig sigs meta,
    Forall (fun field => exists v, lookup field d = Some v /\ key_slot v) key_fields /\
    lookup "metadata" d = Some (VDict meta) /\
    lookup "email" meta = Some email /\
    lookup "signatures" d = Some (VList (sig :: sigs)) /\
    lookup "address" d = Some address /\
    lookup "vp" d = Some vp /\
    lookup "commission_rate" d = Some raw_c /\
    lookup "max_commission_rate_change" d = Some raw_m.

(** A [validator_account] entry that passes every check other than the two
    range checks, with commission rate [c] and maximal change [m]. *)
Definition sound_validator_but_rates (validator : value) (c m : float) : Prop :=
  exists d raw_c raw_m address email,
    validator = VDict d /\
    validator_fields_present d (VStr "vp_user") raw_c raw_m address email /\
    search_email email = Ok true /\
    bech32_decode address = Ok (Some "tnam") /\
    py_float raw_c = Ok c /\
    py_float raw_m = Ok m.


(** A bond entry with the four fields, a signature, well-formed addresses, a
    positive recorded balance and a negative amount. *)
Definition negative_bond (balances bond : value) : Prop :=
  exists d table source validator raw_amount amount raw_balance balance sig sigs,
    bond = VDict d /\
    balances = VDict table /\
    lookup "source" d = Some (VStr source) /\
    lookup "validator" d = Some validator /\
    lookup "amount" d = Some raw_amount /\
    lookup "signatures" d = Some (VList (sig :: sigs)) /\
    py_float raw_amount = Ok amount /\
    num_lt (NFloat amount) (NInt 0) = true /\
    lookup source table = Some raw_balance /\
    py_float raw_balance = Ok balance /\
    num_lt (NInt 0) (NFloat balance) = true /\
    bech32_decode (VStr source) = Ok (Some "tkpnam") /\
    bech32_decode validator = Ok (Some "tnam").

(** The three tracks of the dispatcher, in the order it tries them. *)
Inductive track : Type := Account | Validator | Bond.

Definition track_of (file : string)
    (can_apply_for_validators can_apply_for_bonds can_apply_for_accounts : option string)
    : option track :=
  if is_substring "-account.toml" file && env_truthy can_apply_for_accounts then Some Account
  else if is_substring "-validator.toml" file && env_truthy can_apply_for_validators
  then Some Validator
  else if is_substring "-bond.toml" file && env_truthy can_apply_for_bonds then Some Bond
  else None.

(** The validator a track invokes, applied to the loaded document. *)
Definition run_validator (t : track) (doc nam_balances : value) : result bool :=
  match t with
  | Account => check_if_account_is_valid doc
  | Validator => check_if_validator_is_valid doc
  | Bond => check_if_bond_is_valid doc nam_balances
  end.

(** What [validate_toml] does after it has read the balances, on the track
    [t]: the same four steps on each track, with the track's own test of
    the loaded document and the track's validator. *)
Definition track_steps (w : world) (file : string) (t : track) (nam : value) : io value :=
  doc <~ read_unsafe_toml w file ;;
  _ <~ print_if (match t with
                 | Bond => negb (py_truthy doc)
                 | _ => is_none doc
                 end) (not_valid file) ;;
  is_valid <~ lift (run_validator t doc nam) ;;
  _ <~ print_if (negb is_valid) (not_valid file) ;;
  _ <~ print (valid file) ;;
  io_ret VNone.

End Shapes.

(** The strings a pattern matches as a whole. *)
Inductive in_lang : regex -> string -> Prop :=
| LEps : in_lang REps EmptyString
| LChar (p : ascii -> bool) (c : ascii) :
    p c = true -> in_lang (RChar p) (String c EmptyString)
| LCat (r1 r2 : regex) (s1 s2 : string) :
    in_lang r1 s1 -> in_lang r2 s2 -> in_lang (RCat r1 r2) (s1 ++ s2)
| LAltL (r1 r2 : regex) (s : string) : in_lang r1 s -> in_lang (RAlt r1 r2) s
| LAltR (r1 r2 : regex) (s : string) : in_lang r2 s -> in_lang (RAlt r1 r2) s
| LStarNil (r : regex) : in_lang (RStar r) EmptyString
| LStarCons (r : regex) (s1 s2 : string) :
    in_lang r s1 -> in_lang (RStar r) s2 -> in_lang (RStar r) (s1 ++ s2).

(** Every character of [s] is in the class [p]. *)
Fixpoint all_chars (p : ascii -> bool) (s : string) : bool :=
  match s with
  | EmptyString => true
  | String c s' => p c && all_chars p s'
  end.

(** A non-empty string without white space. *)
Definition non_blank (s : string) : bool :=
  negb (String.eqb s "") && all_chars (fun c => negb (is_space c)) s.

(** A string without a newline. *)
Definition one_line (s : string) : bool :=
  all_chars (fun c => negb (Ascii.eqb c newline)) s.

(** The five key slots hold their two sub-fields and [metadata] holds an
    [email]. *)
Definition validator_slots_present (d : dict) : Prop :=
  Forall (fun field => exists v, lookup field d = Some v /\ key_slot v) key_fields /\
  exists meta email, lookup "metadata" d = Some (VDict meta) /\ lookup "email" meta = Some email.

(** A statement that never returns [True]: every [return] inside the three
    loop bodies is a [return False]. *)
Definition never_true (s : stmt) : Prop := s <> Ok (Some true).

(** The rejection rule of the balance check as the specification words it:
    [balance == 0] or [balance < amount]. *)
Definition spec_balance_rejects (balance : num) (amount : float) : bool :=
  num_eq balance (NInt 0) || num_lt balance (NFloat amount).

Definition num_is_nan (x : num) : bool :=
  match x with
  | NInt _ => false
  | NFloat f => is_nan f
  end.

Definition balances_path : string := "genesis/balances.toml".

(** The lines a run printed. *)
Fixpoint printed (t : list event) : list string :=
  match t with
  | [] => []
  | EvPrint line :: t' => line :: printed t'
  | _ :: t' => printed t'
  end.

(** How many times a run opened [path]. *)
Fixpoint opens (path : string) (t : list event) : nat :=
  match t with
  | [] => O
  | EvOpen p :: t' => (if String.eqb p path then 1 else 0) + opens path t'
  | _ :: t' => opens path t'
  end.

(** [main] passes over a file whose name holds [scripts] or [yml]. *)
Definition skipped (file : string) : bool :=
  is_substring "scripts" file || is_substring "yml" file.

(** The files of a run that [main] hands to [validate_toml]. *)
Definition dispatched (files : list string) : list string :=
  filter (fun file => negb (skipped file)) files.

(** ** Example documents *)

Definition example_account : value :=
  VDict [("vp", VStr "vp_user");
         ("threshold", VInt 1);
         ("public_keys", VList [VStr "tnam15feryxhrcqc5c7"; VStr "tnam1dz9m6y090t632r"])].

Definition example_accounts : dict :=
  [("established_account", VList [example_account])].

Definition example_key : value :=
  VDict [("pk", VStr "pk"); ("authorization", VStr "sig")].

Definition example_validator_fields (rate change : value) : dict :=
  [("consensus_key", example_key);
   ("protocol_key", example_key);
   ("tendermint_node_key", example_key);
   ("eth_hot_key", example_key);
   ("eth_cold_key", example_key);
   ("metadata", VDict [("email", VStr "alice@example.org")]);
   ("signatures", VList [VStr "sig"]);
   ("address", VStr "tnam1mr8wrerwec5m4f");
   ("vp", VStr "vp_user");
   ("commission_rate", rate);
   ("max_commission_rate_change", change)].

Definition example_validator (rate change : value) : value :=
  VDict (example_validator_fields rate change).

Definition example_validators (rate change : value) : dict :=
  [("established_account", VList [example_account]);
   ("validator_account", VList [example_validator rate change])].

Definition example_bond_fields (amount : value) : dict :=
  [("source", VStr "tkpnam1zgj6f8ntj5hlwz");
   ("validator", VStr "tnam1mr8wrerwec5m4f");
   ("amount", amount);
   ("signatures", VList [VStr "sig"])].

Definition example_bond (amount : value) : value :=
  VDict (example_bond_fields amount).

Definition example_bonds (amount : value) : dict :=
  [("bond", VList [example_bond amount])].

Definition example_nam_balances : value :=
  VDict [("tkpnam1zgj6f8ntj5hlwz", VStr "100")].

Definition example_balances : dict :=
  [("token", VDict [("NAM", example_nam_balances)])].

(** An entry without fields, and one whose threshold is a string. *)
Definition empty_entry : value := VDict [].

Definition string_threshold_entry : value :=
  VDict [("vp", VStr "vp_user"); ("threshold", VStr "2"); ("public_keys", VList [])].

(** A run over two new files, an account file and a bond file.  A third
    file holds an account entry without fields; every other path fails to
    load. *)
Definition example_world : world :=
  {| toml_load := fun path =>
       if String.eqb path "genesis/balances.toml" then Some example_balances
       else if String.eqb path "transactions/alice-account.toml" then Some example_accounts
       else if String.eqb path "transactions/alice-bond.toml"
       then Some (example_bonds (VStr "100"))
       else if String.eqb path "transactions/alice-rejected-account.toml"
       then Some [("established_account", VList [empty_entry])]
       else None;
     environ := fun name =>
       if String.eqb name "ALIAS" then Some "Alice"
       else if String.eqb name "CAN_ADD_VALIDATORS" then Some "true"
       else if String.eqb name "CAN_ADD_BONDS" then Some "true"
       else if String.eqb name "CAN_ADD_ACCOUNTS" then Some "true"
       else None;
     git_diff := fun filter =>
       if String.eqb filter "A"
       then (0, ["transactions/alice-account.toml"; "transactions/alice-bond.toml"])
       else (0, []) |}.


(** An account entry whose threshold is the float NaN and that lists no
    key. *)
Definition nan_threshold_entry : dict :=
  [("vp", VStr "vp_user"); ("threshold", VFloat nan); ("public_keys", VList [])].

(** A world without a balances file, and one in which a tracked file was
    deleted. *)
Definition world_without_balances : world :=
  {| toml_load := fun _ => None;
     environ := environ example_world;
     git_diff := git_diff example_world |}.

Definition world_with_deletion : world :=
  {| toml_load := toml_load example_world;
     environ := environ example_world;
     git_diff := fun filter =>
       if String.eqb filter "DM" then (0, ["transactions/bob-account.toml"])
       else git_diff example_world filter |}.

(** * Properties *)

Set Warnings "-inexact-float".

(** ** Statements and loops *)

Lemma seq_next (k : stmt) : next ;;; k = k.
Proof. reflexivity. Qed.

Lemma seq_assoc (a b c : stmt) : (a ;;; b) ;;; c = a ;;; (b ;;; c).
Proof. destruct a as [[x|]|e]; reflexivity. Qed.

(** A statement falls through a sequence only if both parts do. *)
Lemma seq_falls_through (s k : stmt) :
  s ;;; k = next -> s = next /\ k = next.
Proof.
  destruct s as [[b|]|e]; cbn; intros H; try discriminate.
  split; [reflexivity | exact H].
Qed.

Lemma for_each_all_next {A : Type} (body : A -> stmt) (xs : list A) :
  Forall (fun x => body x = next) xs -> for_each body xs = next.
Proof.
  induction 1 as [|x xs Hx _ IH]; cbn; [reflexivity|].
  rewrite Hx, seq_next. exact IH.
Qed.

Lemma for_each_next_inv {A : Type} (body : A -> stmt) (xs : list A) :
  for_each body xs = next -> Forall (fun x => body x = next) xs.
Proof.
  induction xs as [|x xs IH]; cbn; intros H; constructor.
  - apply seq_falls_through in H. tauto.
  - apply IH. apply seq_falls_through in H. tauto.
Qed.

Lemma returning_true_true (s : stmt) :
  returning_true s = Ok true -> s = next \/ s = Ok (Some true).
Proof.
  destruct s as [[[|]|]|e]; cbn; intros H; try discriminate; auto.
Qed.

(** ** Strings *)

Lemma is_prefix_spec (p s : string) :
  is_prefix p s = true <-> exists rest, s = (p ++ rest)%string.
Proof.
  revert s. induction p as [|a p IH]; intros s; cbn.
  - split; [eauto | reflexivity].
  - destruct s as [|b s].
    + split; [discriminate | intros [rest H]; discriminate].
    + rewrite andb_true_iff, Ascii.eqb_eq, IH. split.
      * intros [-> [rest ->]]. eauto.
      * intros [rest H]. injection H as -> ->. eauto.
Qed.

(** [is_substring p s] is Python's [p in s]. *)
Lemma is_substring_spec (p s : string) :
  is_substring p s = true <-> exists before rest, s = (before ++ p ++ rest)%string.
Proof.
  induction s as [|c s IH].
  - cbn. rewrite orb_false_r, is_prefix_spec. split.
    + intros [rest H]. exists EmptyString, rest. exact H.
    + intros (before & rest & H). destruct before; [eauto | discriminate].
  - cbn [is_substring]. rewrite orb_true_iff, is_prefix_spec, IH. split.
    + intros [[rest H] | (before & rest & ->)].
      * exists EmptyString, rest. exact H.
      * exists (String c before), rest. reflexivity.
    + intros (before & rest & H). destruct before as [|b before].
      * left. eauto.
      * right. injection H as -> ->. eauto.
Qed.

(** ** The matcher

    [matches] decides membership in the language of a pattern, and the two
    searches are the searches of [re]. *)

Lemma append_empty_inv (s1 s2 : string) :
  (s1 ++ s2)%string = EmptyString -> s1 = EmptyString /\ s2 = EmptyString.
Proof. destruct s1; cbn; [auto | discriminate]. Qed.

Lemma nullable_spec (r : regex) : nullable r = true <-> in_lang r EmptyString.
Proof.
  split.
  - induction r; cbn; intros H; try discriminate.
    + constructor.
    + apply andb_true_iff in H. destruct H as [H1 H2].
      change EmptyString with (EmptyString ++ EmptyString)%string.
      constructor; auto.
    + apply orb_true_iff in H. destruct H; [apply LAltL | apply LAltR]; auto.
    + constructor.
  - intros H. remember EmptyString as s eqn:Hs.
    induction H; cbn; try discriminate; try reflexivity.
    + apply append_empty_inv in Hs. destruct Hs. rewrite IHin_lang1, IHin_lang2; auto.
    + rewrite IHin_lang; auto.
    + rewrite IHin_lang; auto using orb_true_r.
Qed.

Lemma in_lang_none (s : string) : ~ in_lang RNone s.
Proof. intros H. inversion H. Qed.

Lemma cat_spec (r1 r2 : regex) (s : string) :
  in_lang (cat r1 r2) s <-> in_lang (RCat r1 r2) s.
Proof.
  assert (Hl : forall r, in_lang (RCat RNone r) s -> False).
  { intros r H. inversion H; subst. eapply in_lang_none; eassumption. }
  assert (Hr : forall r, in_lang (RCat r RNone) s -> False).
  { intros r H. inversion H; subst. eapply in_lang_none; eassumption. }
  assert (He : forall r, in_lang r s <-> in_lang (RCat REps r) s).
  { intros r. split; intros H.
    - change s with (EmptyString ++ s)%string. constructor; [constructor | exact H].
    - inversion H as [| |? ? s1 s2 H1 H2| | | |]; subst. inversion H1; subst. exact H2. }
  destruct r1, r2; cbn; try tauto;
    try (split; intros H; exfalso;
         first [ solve [eapply in_lang_none; eassumption]
               | solve [eapply Hl; eassumption]
               | solve [eapply Hr; eassumption] ]);
    try apply He.
Qed.

Lemma alt_spec (r1 r2 : regex) (s : string) :
  in_lang (alt r1 r2) s <-> in_lang (RAlt r1 r2) s.
Proof.
  assert (Hl : forall r, in_lang r s <-> in_lang (RAlt RNone r) s).
  { intros r. split; intros H; [apply LAltR; exact H|].
    inversion H; subst; [exfalso; eapply in_lang_none; eassumption | assumption]. }
  assert (Hr : forall r, in_lang r s <-> in_lang (RAlt r RNone) s).
  { intros r. split; intros H; [apply LAltL; exact H|].
    inversion H; subst; [assumption | exfalso; eapply in_lang_none; eassumption]. }
  destruct r1, r2; cbn; try tauto; first [apply Hl | apply Hr].
Qed.

Lemma star_cons_inv (r : regex) (c : ascii) (s : string) :
  in_lang (RStar r) (String c s) ->
  exists s1 s2, s = (s1 ++ s2)%string /\ in_lang r (String c s1) /\ in_lang (RStar r) s2.
Proof.
  intros H. remember (RStar r) as r' eqn:Hr. remember (String c s) as t eqn:Ht.
  induction H as [| | | | | |r0 s1 s2 H1 _ H2 IH2]; try discriminate.
  injection Hr as ->. destruct s1 as [|c1 s1]; cbn in Ht.
  - apply IH2; auto.
  - injection Ht as -> <-. eauto.
Qed.

Lemma deriv_spec (c : ascii) (r : regex) (s : string) :
  in_lang (deriv c r) s <-> in_lang r (String c s).
Proof.
  revert s. induction r as [| |p|r1 IH1 r2 IH2|r1 IH1 r2 IH2|r1 IH1]; intros s; cbn.
  - split; intros H; inversion H.
  - split; intros H; inversion H.
  - destruct (p c) eqn:Hp; split; intros H.
    + inversion H; subst. constructor. exact Hp.
    + inversion H; subst. constructor.
    + inversion H.
    + inversion H; subst. congruence.
  - rewrite alt_spec. split; intros H.
    + inversion H as [| | |? ? ? H'|? ? ? H'| |]; subst.
      * apply cat_spec in H'. inversion H' as [| |? ? s1 s2 Ha Hb| | | |]; subst.
        apply IH1 in Ha.
        change (String c (s1 ++ s2)) with (String c s1 ++ s2)%string.
        constructor; assumption.
      * destruct (nullable r1) eqn:Hn; [|inversion H'].
        apply nullable_spec in Hn. apply IH2 in H'.
        change (String c s) with (EmptyString ++ String c s)%string.
        constructor; assumption.
    + inversion H as [| |? ? s1 s2 Ha Hb Hr Hs| | | |]; subst.
      destruct s1 as [|c1 s1]; cbn in Hs.
      * subst s2. apply LAltR. apply nullable_spec in Ha. rewrite Ha.
        apply IH2. exact Hb.
      * injection Hs as -> <-. apply LAltL. apply cat_spec.
        constructor; [apply IH1; exact Ha | exact Hb].
  - rewrite alt_spec. split; intros H.
    + inversion H; subst; [apply LAltL, IH1 | apply LAltR, IH2]; assumption.
    + inversion H; subst; [apply LAltL, IH1 | apply LAltR, IH2]; assumption.
  - rewrite cat_spec. split; intros H.
    + inversion H as [| |? ? s1 s2 Ha Hb| | | |]; subst.
      apply IH1 in Ha.
      change (String c (s1 ++ s2)) with (String c s1 ++ s2)%string.
      constructor; assumption.
    + apply star_cons_inv in H. destruct H as (s1 & s2 & -> & Ha & Hb).
      constructor; [apply IH1; exact Ha | exact Hb].
Qed.

(** [matches] is membership in the language of the pattern. *)
Lemma matches_spec (r : regex) (s : string) : matches r s = true <-> in_lang r s.
Proof.
  revert r. induction s as [|c s IH]; intros r; cbn.
  - apply nullable_spec.
  - rewrite IH. apply deriv_spec.
Qed.

Lemma in_lang_any (s : string) : in_lang (RStar any_char) s.
Proof.
  induction s as [|c s IH]; [constructor|].
  change (String c s) with (String c EmptyString ++ s)%string.
  constructor; [constructor; reflexivity | exact IH].
Qed.

(** [re_search r s] holds exactly when some substring of [s] is in the
    language of [r]. *)
Lemma re_search_spec (r : regex) (s : string) :
  re_search r s = true <->
  exists before found after,
    s = (before ++ found ++ after)%string /\ in_lang r found.
Proof.
  unfold re_search. rewrite matches_spec. split.
  - intros H. inversion H as [| |? ? s1 s2 _ Hb| | | |]; subst.
    inversion Hb as [| |? ? s3 s4 Hc _| | | |]; subst.
    exists s1, s3, s4. auto.
  - intros (a & b & c & -> & Hb).
    constructor; [apply in_lang_any|]. constructor; [exact Hb | apply in_lang_any].
Qed.

(** [re_search_anchored r s] holds exactly when [s], or [s] without the
    newline that ends it, is in the language of [r]. *)
Lemma re_search_anchored_spec (r : regex) (s : string) :
  re_search_anchored r s = true <->
  in_lang r s \/ exists t, s = (t ++ String newline EmptyString)%string /\ in_lang r t.
Proof.
  unfold re_search_anchored. rewrite matches_spec. split.
  - intros H. inversion H as [| |? ? s1 s2 Ha Hb| | | |]; subst.
    inversion Hb as [| | |? ? ? Hc|? ? ? Hc| |]; subst.
    + inversion Hc; subst. left.
      replace (s1 ++ EmptyString)%string with s1; [exact Ha|].
      clear. induction s1; cbn; congruence.
    + inversion Hc as [|? c Hn| | | | |]; subst. right. exists s1.
      apply Ascii.eqb_eq in Hn. subst c. auto.
  - intros [H | (t & -> & H)].
    + replace s with (s ++ EmptyString)%string.
      * constructor; [exact H | apply LAltL; constructor].
      * clear. induction s; cbn; congruence.
    + constructor; [exact H|]. apply LAltR. constructor. apply Ascii.eqb_refl.
Qed.

(** ** Dictionaries and operators *)

Lemma py_getitem_lookup (d : dict) (k : string) (v : value) :
  lookup k d = Some v -> py_getitem (VDict d) (VStr k) = Ok v.
Proof. intros H. cbn. rewrite H. reflexivity. Qed.

Lemma py_contains_lookup (d : dict) (k : string) (v : value) :
  lookup k d = Some v -> py_contains (VStr k) (VDict d) = Ok true.
Proof. intros H. cbn. unfold has_key. rewrite H. reflexivity. Qed.

Lemma py_contains_dict (d : dict) (k : string) :
  py_contains (VStr k) (VDict d) = Ok (has_key k d).
Proof. reflexivity. Qed.

Lemma num_lt_int (a b : Z) : num_lt (NInt a) (NInt b) = (a <? b).
Proof. unfold num_lt, Z.ltb. cbn. destruct (a ?= b); reflexivity. Qed.

Lemma num_le_int (a b : Z) : num_le (NInt a) (NInt b) = (a <=? b).
Proof. unfold num_le, Z.leb. cbn. destruct (a ?= b); reflexivity. Qed.

Section ValidatorFacts.
Context `{RT : Runtime}.

Lemma require_fields_dict (fields : list string) (d : dict) :
  require_fields fields (VDict d) =
  return_false_if (negb (forallb (fun f => has_key f d) fields)).
Proof.
  unfold require_fields.
  induction fields as [|f fields IH]; cbn; [reflexivity|].
  destruct (has_key f d); cbn; [exact IH | reflexivity].
Qed.

Lemma require_fields_present (fields : list string) (d : dict) :
  Forall (fun f => has_key f d = true) fields ->
  require_fields fields (VDict d) = next.
Proof.
  intros H. rewrite require_fields_dict.
  replace (forallb (fun f => has_key f d) fields) with true; [reflexivity|].
  symmetry. apply forallb_forall. apply Forall_forall. exact H.
Qed.

Lemma has_key_lookup (d : dict) (k : string) (v : value) :
  lookup k d = Some v -> has_key k d = true.
Proof. unfold has_key. intros ->. reflexivity. Qed.

Lemma require_hrp_ok (x : value) (h : string) :
  bech32_decode x = Ok (Some h) -> require_hrp x h = next.
Proof.
  intros H. unfold require_hrp. rewrite H. cbn.
  rewrite String.eqb_refl. reflexivity.
Qed.

(** *** Accounts *)

Lemma account_body_sound (account : value) :
  sound_account account -> account_body account = next.
Proof.
  intros (d & t & keys & -> & Hvp & Hth & Hpk & Hrange & Hkeys).
  unfold account_body.
  rewrite require_fields_present, seq_next.
  2:{ repeat constructor; eapply has_key_lookup; eassumption. }
  rewrite (py_getitem_lookup _ _ _ Hvp), (py_getitem_lookup _ _ _ Hth),
    (py_getitem_lookup _ _ _ Hpk).
  cbn [bind py_len py_num_op as_num py_iter].
  change (py_eq (VStr "vp_user") (VStr "vp_user")) with (String.eqb "vp_user" "vp_user").
  rewrite String.eqb_refl. cbn [negb return_false_if]. rewrite seq_next.
  rewrite num_lt_int, num_le_int.
  replace (Z.of_nat (Datatypes.length keys) <? t) with false by (symmetry; apply Z.ltb_ge; lia).
  replace (t <=? 0) with false by (symmetry; apply Z.leb_gt; lia).
  cbn [return_false_if]. rewrite !seq_next.
  apply for_each_all_next.
  eapply Forall_impl; [|exact Hkeys].
  intros k Hk. apply require_hrp_ok. exact Hk.
Qed.

(** C4.  An account record in which every [established_account] entry has
    the three required fields, [vp] equal to [vp_user], an integer
    threshold with [len(public_keys) >= threshold >= 1], and public keys
    that all decode with the human-readable part [tnam], is accepted:
    [check_if_account_is_valid] returns [True]. *)
Theorem account_record_accepted (d : dict) (entries : list value) :
  lookup "established_account" d = Some (VList entries) ->
  Forall sound_account entries ->
  check_if_account_is_valid (VDict d) = Ok true.
Proof.
  intros Hd Hall. unfold check_if_account_is_valid.
  rewrite (py_getitem_lookup _ _ _ Hd). cbn [bind py_iter].
  rewrite for_each_all_next; [reflexivity|].
  eapply Forall_impl; [|exact Hall].
  intros a Ha. apply account_body_sound. exact Ha.
Qed.

End ValidatorFacts.

Lemma example_account_sound : @sound_account reference_runtime example_account.
Proof.
  exists [("vp", VStr "vp_user"); ("threshold", VInt 1);
          ("public_keys", VList [VStr "tnam15feryxhrcqc5c7"; VStr "tnam1dz9m6y090t632r"])],
    1, [VStr "tnam15feryxhrcqc5c7"; VStr "tnam1dz9m6y090t632r"].
  repeat split; try reflexivity; cbn; try lia.
  repeat constructor; vm_compute; reflexivity.
Qed.

Lemma account_record_accepted_witness :
  @check_if_account_is_valid reference_runtime (VDict example_accounts) = Ok true.
Proof.
  apply (@account_record_accepted reference_runtime example_accounts [example_account]).
  - reflexivity.
  - constructor; [exact example_account_sound | constructor].
Defined.

(** ** Verdicts of the validators *)

Lemma never_true_return_false_if (c : bool) : never_true (return_false_if c).
Proof. destruct c; discriminate. Qed.

Lemma never_true_seq (a b : stmt) :
  never_true a -> never_true b -> never_true (a ;;; b).
Proof.
  unfold never_true. destruct a as [[[|]|]|e]; cbn; intros Ha Hb; try discriminate; auto.
Qed.

Lemma never_true_bind {A : Type} (m : result A) (k : A -> stmt) :
  (forall a, never_true (k a)) -> never_true (bind m k).
Proof. destruct m; cbn; intros H; [apply H | discriminate]. Qed.

Lemma never_true_for_each {A : Type} (body : A -> stmt) (xs : list A) :
  (forall x, never_true (body x)) -> never_true (for_each body xs).
Proof.
  intros H. induction xs as [|x xs IH]; cbn; [discriminate|].
  apply never_true_seq; [apply H | exact IH].
Qed.

Ltac never_true_tac :=
  repeat first
    [ apply never_true_return_false_if
    | apply never_true_seq
    | apply never_true_for_each; intros
    | apply never_true_bind; intros ].

(** The verdict of a loop that ends in [return True]: [True] exactly when
    every body falls through. *)
Lemma loop_true_iff {A : Type} (body : A -> stmt) (xs : list A) :
  (forall x, never_true (body x)) ->
  returning_true (for_each body xs) = Ok true <->
  Forall (fun x => body x = next) xs.
Proof.
  intros Hnt. split.
  - intros H. apply returning_true_true in H. destruct H as [H|H].
    + apply for_each_next_inv. exact H.
    + exfalso. exact (never_true_for_each body xs Hnt H).
  - intros H. rewrite for_each_all_next by exact H. reflexivity.
Qed.

Lemma loop_returns {A : Type} (body : A -> stmt) (xs : list A) :
  Forall (fun x => exists r, body x = Ok r) xs ->
  exists b, returning_true (for_each body xs) = Ok b.
Proof.
  induction 1 as [|x xs [r Hr] _ [b IH]]; cbn.
  - exists true. reflexivity.
  - rewrite Hr. destruct r as [v|]; cbn.
    + exists v. reflexivity.
    + exists b. exact IH.
Qed.

(** Two loops over permuted lists that both return a verdict return the
    same one. *)
Lemma loop_permutation {A : Type} (body : A -> stmt) (xs ys : list A) (b b' : bool) :
  (forall x, never_true (body x)) ->
  Permutation xs ys ->
  returning_true (for_each body xs) = Ok b ->
  returning_true (for_each body ys) = Ok b' ->
  b = b'.
Proof.
  intros Hnt Hp Hx Hy.
  assert (Hiff : b = true <-> b' = true).
  { split; intros ->.
    - apply (loop_true_iff body _ Hnt) in Hx.
      assert (H : returning_true (for_each body ys) = Ok true).
      { apply (loop_true_iff body _ Hnt). eapply Permutation_Forall; eassumption. }
      congruence.
    - apply (loop_true_iff body _ Hnt) in Hy.
      assert (H : returning_true (for_each body xs) = Ok true).
      { apply (loop_true_iff body _ Hnt).
        eapply Permutation_Forall; [apply Permutation_sym|]; eassumption. }
      congruence. }
  destruct b, b'; intuition congruence.
Qed.

Section OrderFacts.
Context `{RT : Runtime}.

Lemma never_true_require_fields (fields : list string) (obj : value) :
  never_true (require_fields fields obj).
Proof. unfold require_fields. never_true_tac. Qed.

Lemma never_true_require_hrp (x : value) (h : string) :
  never_true (require_hrp x h).
Proof. unfold require_hrp. never_true_tac. Qed.

Lemma never_true_require_sub_fields (fields subs : list string) (obj : value) :
  never_true (require_sub_fields fields subs obj).
Proof. unfold require_sub_fields. never_true_tac. Qed.

Ltac never_true_body :=
  repeat first
    [ apply never_true_require_fields
    | apply never_true_require_sub_fields
    | apply never_true_require_hrp
    | apply never_true_return_false_if
    | apply never_true_seq
    | apply never_true_for_each; intros
    | apply never_true_bind; intros ].

Lemma never_true_account_body (account : value) : never_true (account_body account).
Proof. unfold account_body. never_true_body. Qed.


Lemma never_true_bond_body (balances bond : value) :
  never_true (bond_body balances bond).
Proof.
  unfold bond_body. never_true_body.
Qed.

Lemma check_account_unfold (d : dict) (es : list value) :
  lookup "established_account" d = Some (VList es) ->
  check_if_account_is_valid (VDict d) = returning_true (for_each account_body es).
Proof.
  intros H. unfold check_if_account_is_valid.
  rewrite (py_getitem_lookup _ _ _ H). reflexivity.
Qed.

(** C8, as amended.  Let two account records hold the same
    [established_account] entries in different orders.  Whenever
    [check_if_account_is_valid] returns a verdict on both, the two verdicts
    are equal; and when no entry makes the loop body raise, it returns on
    both, with the same verdict. *)
Theorem account_order_keeps_verdict (d d' : dict) (es es' : list value) :
  lookup "established_account" d = Some (VList es) ->
  lookup "established_account" d' = Some (VList es') ->
  Permutation es es' ->
  (forall b b',
      check_if_account_is_valid (VDict d) = Ok b ->
      check_if_account_is_valid (VDict d') = Ok b' ->
      b = b') /\
  (Forall (fun e => exists r, account_body e = Ok r) es ->
   exists b,
     check_if_account_is_valid (VDict d) = Ok b /\
     check_if_account_is_valid (VDict d') = Ok b).
Proof.
  intros Hd Hd' Hp.
  rewrite (check_account_unfold _ _ Hd), (check_account_unfold _ _ Hd').
  split.
  - intros b b' Hb Hb'.
    exact (loop_permutation account_body es es' b b' never_true_account_body Hp Hb Hb').
  - intros Hok.
    destruct (loop_returns account_body es Hok) as [b Hb].
    assert (Hok' : Forall (fun e => exists r, account_body e = Ok r) es')
      by (eapply Permutation_Forall; eassumption).
    destruct (loop_returns account_body es' Hok') as [b' Hb'].
    exists b. split; [exact Hb|].
    rewrite Hb'. f_equal. symmetry.
    exact (loop_permutation account_body es es' b b' never_true_account_body Hp Hb Hb').
Qed.

End OrderFacts.

Lemma account_order_keeps_verdict_witness :
  (forall b b',
      @check_if_account_is_valid reference_runtime
        (VDict [("established_account", VList [empty_entry; example_account])]) = Ok b ->
      @check_if_account_is_valid reference_runtime
        (VDict [("established_account", VList [example_account; empty_entry])]) = Ok b' ->
      b = b') /\
  (Forall (fun e => exists r, @account_body reference_runtime e = Ok r)
     [empty_entry; example_account] ->
   exists b,
     @check_if_account_is_valid reference_runtime
       (VDict [("established_account", VList [empty_entry; example_account])]) = Ok b /\
     @check_if_account_is_valid reference_runtime
       (VDict [("established_account", VList [example_account; empty_entry])]) = Ok b).
Proof.
  apply (@account_order_keeps_verdict reference_runtime
           [("established_account", VList [empty_entry; example_account])]
           [("established_account", VList [example_account; empty_entry])]
           [empty_entry; example_account] [example_account; empty_entry]).
  - reflexivity.
  - reflexivity.
  - apply perm_swap.
Defined.

(** C8, the claim as stated fails: an entry without fields makes the loop
    return [False], an entry whose threshold is a string makes the
    comparison with the number of keys raise [TypeError]; which of the two
    happens depends on the order of the entries. *)
Lemma account_order_counterexample :
  Permutation [empty_entry; string_threshold_entry] [string_threshold_entry; empty_entry] /\
  @check_if_account_is_valid reference_runtime
    (VDict [("established_account", VList [empty_entry; string_threshold_entry])])
  = Ok false /\
  @check_if_account_is_valid reference_runtime
    (VDict [("established_account", VList [string_threshold_entry; empty_entry])])
  = Raise TypeError.
Proof.
  split; [apply perm_swap|]. split; vm_compute; reflexivity.
Qed.

(** ** Numbers *)

Lemma Prim2SF_not_nan (f : float) : is_nan f = false -> Prim2SF f <> S754_nan.
Proof.
  intros H. unfold Prim2SF. rewrite H.
  destruct (is_zero f); [discriminate|].
  destruct (is_infinity f); [discriminate|].
  destruct (Z.frexp f) as [r e].
  destruct (shr_fexp prec emax _ _ _) as [shr e'].
  destruct (shr_m shr); discriminate.
Qed.

Lemma SFcompare_some (x y : spec_float) :
  x <> S754_nan -> y <> S754_nan -> exists c, SFcompare x y = Some c.
Proof.
  destruct x, y; cbn; intros Hx Hy; try congruence; eauto.
Qed.

Lemma compare_Z_SF_some (n : Z) (x : spec_float) :
  x <> S754_nan -> exists c, compare_Z_SF n x = Some c.
Proof. destruct x; cbn; intros Hx; try congruence; eauto. Qed.

(** A number below which [0] lies is positive infinity or a positive finite
    number. *)
Lemma compare_Z_SF_zero_lt (x : spec_float) :
  compare_Z_SF 0 x = Some Lt ->
  x = S754_infinity false \/ exists m e, x = S754_finite false m e.
Proof.
  destruct x as [s|s| |s m e]; cbn; try discriminate.
  - destruct s; [discriminate | auto].
  - destruct s; [|eauto].
    destruct (0 <=? e) eqn:He; intros H; exfalso.
    + apply Z.leb_le in He.
      pose proof (Z.pow_pos_nonneg 2 e ltac:(lia) He) as Hp.
      destruct (2 ^ e); cbn in H; try discriminate; lia.
    + cbn in H. discriminate.
Qed.

Lemma compare_Z_SF_zero_gt (x : spec_float) :
  compare_Z_SF 0 x = Some Gt ->
  x = S754_infinity true \/ exists m e, x = S754_finite true m e.
Proof.
  destruct x as [s|s| |s m e]; cbn; try discriminate.
  - destruct s; [auto | discriminate].
  - destruct s; [eauto|].
    destruct (0 <=? e) eqn:He; intros H; exfalso.
    + apply Z.leb_le in He.
      pose proof (Z.pow_pos_nonneg 2 e ltac:(lia) He) as Hp.
      destruct (2 ^ e); cbn in H; try discriminate; lia.
    + cbn in H. discriminate.
Qed.

Lemma num_lt_zero_float (b : float) :
  num_lt (NInt 0) (NFloat b) = true -> compare_Z_SF 0 (Prim2SF b) = Some Lt.
Proof.
  unfold num_lt. cbn. destruct (compare_Z_SF 0 (Prim2SF b)) as [[| |]|]; congruence.
Qed.

Lemma num_lt_float_zero (a : float) :
  num_lt (NFloat a) (NInt 0) = true -> compare_Z_SF 0 (Prim2SF a) = Some Gt.
Proof.
  unfold num_lt. cbn. destruct (compare_Z_SF 0 (Prim2SF a)) as [[| |]|]; cbn; congruence.
Qed.

Lemma positive_is_not_zero (b : float) :
  num_lt (NInt 0) (NFloat b) = true -> num_eq (NFloat b) (NInt 0) = false.
Proof.
  intros H. apply num_lt_zero_float in H. unfold num_eq. cbn. rewrite H. reflexivity.
Qed.

(** A positive balance is at least any negative amount. *)
Lemma positive_ge_negative (b a : float) :
  num_lt (NInt 0) (NFloat b) = true ->
  num_lt (NFloat a) (NInt 0) = true ->
  num_ge (NFloat b) (NFloat a) = true.
Proof.
  intros Hb Ha.
  apply num_lt_zero_float, compare_Z_SF_zero_lt in Hb.
  apply num_lt_float_zero, compare_Z_SF_zero_gt in Ha.
  unfold num_ge. cbn. rewrite compare_spec.
  destruct Hb as [-> | (m & e & ->)], Ha as [-> | (m' & e' & ->)]; reflexivity.
Qed.

Lemma SFcompare_refl (x : spec_float) : x <> S754_nan -> SFcompare x x = Some Eq.
Proof.
  destruct x as [s|s| |s m e]; cbn; intros Hx; try congruence.
  - destruct s; reflexivity.
  - rewrite Z.compare_refl.
    change (Pos.compare_cont Eq m m) with (Pos.compare m m).
    rewrite Pos.compare_refl. destruct s; reflexivity.
Qed.

Lemma positive_is_not_nan (b : float) :
  num_lt (NInt 0) (NFloat b) = true -> Prim2SF b <> S754_nan.
Proof.
  intros H. apply num_lt_zero_float, compare_Z_SF_zero_lt in H.
  destruct H as [-> | (m & e & ->)]; discriminate.
Qed.

Lemma positive_ge_itself (a : float) :
  num_lt (NInt 0) (NFloat a) = true -> num_ge (NFloat a) (NFloat a) = true.
Proof.
  intros H. apply positive_is_not_nan in H.
  unfold num_ge. cbn. rewrite compare_spec, (SFcompare_refl _ H). reflexivity.
Qed.

(** Away from NaN, [not balance >= amount] is [balance < amount]. *)
Lemma not_ge_is_lt (balance : num) (amount : float) :
  num_is_nan balance = false -> is_nan amount = false ->
  negb (num_ge balance (NFloat amount)) = num_lt balance (NFloat amount).
Proof.
  intros Hb Ha. apply Prim2SF_not_nan in Ha.
  unfold num_ge, num_lt. destruct balance as [n|b]; cbn in *.
  - destruct (compare_Z_SF_some n _ Ha) as [c ->]. destruct c; reflexivity.
  - apply Prim2SF_not_nan in Hb. rewrite compare_spec.
    destruct (SFcompare_some _ _ Hb Ha) as [c ->]. destruct c; reflexivity.
Qed.

(** ** Bonds *)

Section BondFacts.
Context `{RT : Runtime}.

Lemma signatures_check (d : dict) (sig : value) (sigs : list value) (k : stmt) :
  lookup "signatures" d = Some (VList (sig :: sigs)) ->
  (signatures <- py_getitem (VDict d) (VStr "signatures") ;;
   n <- py_len signatures ;;
   return_false_if (n <=? 0)) ;;; k = k.
Proof.
  intros H. rewrite (py_getitem_lookup _ _ _ H). cbn [bind py_len].
  replace (Z.of_nat (Datatypes.length (sig :: sigs)) <=? 0) with false.
  - reflexivity.
  - symmetry. apply Z.leb_gt. cbn [Datatypes.length]. lia.
Qed.

(** A bond entry with its four fields, a signature and a parseable amount
    reaches the balance check, and is judged by it and the two address
    checks. *)
Lemma bond_body_reaches_balance_check
    (balances : value) (d : dict) (source validator raw_amount sig : value)
    (sigs : list value) (amount : float) (balance : num) :
  lookup "source" d = Some source ->
  lookup "validator" d = Some validator ->
  lookup "amount" d = Some raw_amount ->
  lookup "signatures" d = Some (VList (sig :: sigs)) ->
  py_float raw_amount = Ok amount ->
  balance_of balances source = Ok balance ->
  bond_body balances (VDict d) =
  return_false_if (balance_rejects balance amount) ;;;
  require_hrp source "tkpnam" ;;; require_hrp validator "tnam".
Proof.
  intros Hs Hv Ha Hg Hf Hb. unfold bond_body.
  rewrite require_fields_present, seq_next.
  2:{ repeat constructor; eapply has_key_lookup; eassumption. }
  rewrite (signatures_check _ _ _ _ Hg).
  rewrite (py_getitem_lookup _ _ _ Hs), (py_getitem_lookup _ _ _ Hv),
    (py_getitem_lookup _ _ _ Ha).
  cbn [bind]. rewrite Hf. cbn [bind]. rewrite Hb. reflexivity.
Qed.

(** C5, as amended.  A bond entry with the four fields, a signature and a
    parseable amount is rejected by the balance check exactly when
    [balance == 0 or not balance >= amount], where [balance] is
    [float(balances[source])] when [source] is a key of the table and [0]
    otherwise; an entry that is not rejected there goes on to the two
    address checks.  When neither number is a NaN the rule is the one the
    specification words, [balance == 0 or balance < amount].  A zero or
    absent balance is always rejected, also for amount [0]; an amount equal
    to a positive recorded balance passes the balance check. *)
Theorem bond_balance_check
    (balances : value) (d : dict) (source validator raw_amount sig : value)
    (sigs : list value) (amount : float) (balance : num) :
  lookup "source" d = Some source ->
  lookup "validator" d = Some validator ->
  lookup "amount" d = Some raw_amount ->
  lookup "signatures" d = Some (VList (sig :: sigs)) ->
  py_float raw_amount = Ok amount ->
  balance_of balances source = Ok balance ->
  bond_body balances (VDict d) =
    (if num_eq balance (NInt 0) || negb (num_ge balance (NFloat amount))
     then ret_false
     else require_hrp source "tkpnam" ;;; require_hrp validator "tnam") /\
  (forall (table : dict) (s : string),
      balance_of (VDict table) (VStr s) =
      match lookup s table with
      | Some raw => f <- py_float raw ;; Ok (NFloat f)
      | None => Ok (NInt 0)
      end) /\
  (num_is_nan balance = false -> is_nan amount = false ->
   (num_eq balance (NInt 0) || negb (num_ge balance (NFloat amount)))
   = spec_balance_rejects balance amount) /\
  (num_eq balance (NInt 0) = true -> bond_body balances (VDict d) = ret_false) /\
  (balance = NFloat amount -> num_lt (NInt 0) (NFloat amount) = true ->
   bond_body balances (VDict d) =
   require_hrp source "tkpnam" ;;; require_hrp validator "tnam").
Proof.
  intros Hs Hv Ha Hg Hf Hb.
  pose proof (bond_body_reaches_balance_check _ _ _ _ _ _ _ _ _ Hs Hv Ha Hg Hf Hb) as Hbody.
  unfold balance_rejects in Hbody.
  repeat split.
  - rewrite Hbody.
    destruct (num_eq balance (NInt 0) || negb (num_ge balance (NFloat amount))); reflexivity.
  - intros table s. unfold balance_of. cbn [py_contains bind].
    unfold has_key. destruct (lookup s table) as [raw|] eqn:Hl; [|reflexivity].
    rewrite (py_getitem_lookup _ _ _ Hl). reflexivity.
  - intros Hnb Hna. unfold spec_balance_rejects.
    rewrite (not_ge_is_lt _ _ Hnb Hna). reflexivity.
  - intros Hz. rewrite Hbody, Hz. reflexivity.
  - intros -> Hpos. rewrite Hbody.
    rewrite (positive_is_not_zero _ Hpos), (positive_ge_itself _ Hpos). reflexivity.
Qed.

Lemma balance_rejects_negative (balance amount : float) :
  num_lt (NInt 0) (NFloat balance) = true ->
  num_lt (NFloat amount) (NInt 0) = true ->
  balance_rejects (NFloat balance) amount = false.
Proof.
  intros Hb Ha. unfold balance_rejects.
  rewrite (positive_is_not_zero _ Hb), (positive_ge_negative _ _ Hb Ha). reflexivity.
Qed.

Lemma bond_body_negative (balances bond : value) :
  negative_bond balances bond -> bond_body balances bond = next.
Proof.
  intros (d & table & source & validator & raw_amount & amount & raw_balance & balance
          & sig & sigs & -> & -> & Hs & Hv & Ha & Hg & Hf & Hneg & Hl & Hfb & Hpos
          & Hsrc & Hval).
  rewrite (bond_body_reaches_balance_check _ _ _ _ _ _ _ amount (NFloat balance)
             Hs Hv Ha Hg Hf).
  - rewrite (balance_rejects_negative _ _ Hpos Hneg). cbn [return_false_if].
    rewrite seq_next, (require_hrp_ok _ _ Hsrc), seq_next.
    apply require_hrp_ok. exact Hval.
  - unfold balance_of. cbn [py_contains bind]. rewrite (has_key_lookup _ _ _ Hl).
    rewrite (py_getitem_lookup _ _ _ Hl). cbn [bind]. rewrite Hfb. reflexivity.
Qed.

(** C10.  The bond validator puts no lower bound on the amount: a record
    whose [bond] entries all have the four fields, a signature, a source
    decoding with [tkpnam], a validator decoding with [tnam], a positive
    recorded balance and a negative amount is accepted. *)
Theorem negative_amount_accepted (d : dict) (balances : value) (entries : list value) :
  lookup "bond" d = Some (VList entries) ->
  Forall (negative_bond balances) entries ->
  check_if_bond_is_valid (VDict d) balances = Ok true.
Proof.
  intros Hd Hall. unfold check_if_bond_is_valid.
  rewrite (py_getitem_lookup _ _ _ Hd). cbn [bind py_iter].
  rewrite for_each_all_next; [reflexivity|].
  eapply Forall_impl; [|exact Hall].
  intros b Hb. apply bond_body_negative. exact Hb.
Qed.

End BondFacts.

Lemma example_negative_bond :
  @negative_bond reference_runtime example_nam_balances (example_bond (VStr "-5")).
Proof.
  exists (example_bond_fields (VStr "-5")), [("tkpnam1zgj6f8ntj5hlwz", VStr "100")],
    "tkpnam1zgj6f8ntj5hlwz", (VStr "tnam1mr8wrerwec5m4f"), (VStr "-5"), (-5)%float,
    (VStr "100"), 100%float, (VStr "sig"), [].
  repeat split; vm_compute; reflexivity.
Qed.

Lemma negative_amount_accepted_witness :
  @check_if_bond_is_valid reference_runtime (VDict (example_bonds (VStr "-5")))
    example_nam_balances = Ok true.
Proof.
  apply (@negative_amount_accepted reference_runtime (example_bonds (VStr "-5"))
           example_nam_balances [example_bond (VStr "-5")]).
  - reflexivity.
  - constructor; [exact example_negative_bond | constructor].
Defined.

Lemma bond_balance_check_witness :
  @bond_body reference_runtime example_nam_balances (example_bond (VStr "100")) =
  @require_hrp reference_runtime (VStr "tkpnam1zgj6f8ntj5hlwz") "tkpnam" ;;;
  @require_hrp reference_runtime (VStr "tnam1mr8wrerwec5m4f") "tnam".
Proof.
  destruct (@bond_balance_check reference_runtime example_nam_balances
              (example_bond_fields (VStr "100"))
              (VStr "tkpnam1zgj6f8ntj5hlwz") (VStr "tnam1mr8wrerwec5m4f") (VStr "100")
              (VStr "sig") [] 100%float (NFloat 100%float)
              eq_refl eq_refl eq_refl eq_refl eq_refl eq_refl)
    as (_ & _ & _ & _ & H).
  exact (H eq_refl eq_refl).
Defined.

(** C5, the claim as stated fails: with a recorded balance of [100] and the
    amount [nan], neither [balance == 0] nor [balance < amount] holds, and
    the balance check rejects the bond all the same, because
    [balance >= amount] is false too.  The same bond with amount [100] is
    accepted, so it is the balance check that rejects. *)
Lemma bond_balance_check_counterexample :
  @balance_of reference_runtime example_nam_balances (VStr "tkpnam1zgj6f8ntj5hlwz")
  = Ok (NFloat 100%float) /\
  @py_float reference_runtime (VStr "nan") = Ok nan /\
  spec_balance_rejects (NFloat 100%float) nan = false /\
  balance_rejects (NFloat 100%float) nan = true /\
  @check_if_bond_is_valid reference_runtime (VDict (example_bonds (VStr "nan")))
    example_nam_balances = Ok false /\
  @check_if_bond_is_valid reference_runtime (VDict (example_bonds (VStr "100")))
    example_nam_balances = Ok true.
Proof. repeat split; vm_compute; reflexivity. Qed.

(** ** Validators *)

Section ValidatorEntryFacts.
Context `{RT : Runtime}.

Lemma require_sub_fields_present (fields subs : list string) (d : dict) :
  Forall (fun field =>
            exists v, lookup field d = Some v /\
                      Forall (fun sub => py_contains (VStr sub) v = Ok true) subs)
         fields ->
  require_sub_fields fields subs (VDict d) = next.
Proof.
  intros H. unfold require_sub_fields. apply for_each_all_next.
  eapply Forall_impl; [|exact H].
  intros field (v & Hv & Hsubs). apply for_each_all_next.
  eapply Forall_impl; [|exact Hsubs].
  intros sub Hsub. cbn beta.
  rewrite (py_getitem_lookup _ _ _ Hv). cbn [bind]. rewrite Hsub. reflexivity.
Qed.

(** An entry that passes the presence checks is judged by the two parses
    and the five checks that follow them. *)
Lemma validator_body_present (d : dict) (vp raw_c raw_m address email : value) :
  validator_fields_present d vp raw_c raw_m address email ->
  validator_body (VDict d) =
  (commission_rate <- py_float raw_c ;;
   max_commission_rate_change <- py_float raw_m ;;
   return_false_if (negb (py_eq vp (VStr "vp_user"))) ;;;
   return_false_if (outside_unit_interval commission_rate) ;;;
   return_false_if (outside_unit_interval max_commission_rate_change) ;;;
   (found <- search_email email ;;
    return_false_if (negb found)) ;;;
   require_hrp address "tnam").
Proof.
  intros (sig & sigs & meta & Hkeys & Hmeta & Hemail & Hsigs & Haddr & Hvp & Hc & Hm).
  unfold validator_body.
  rewrite require_fields_present, seq_next.
  2:{ unfold key_fields in Hkeys.
      repeat match goal with
             | H : Forall _ (_ :: _) |- _ => inversion H; clear H; subst
             end.
      repeat match goal with
             | H : exists _, _ /\ _ |- _ => destruct H as (? & ? & _)
             end.
      unfold validator_fields.
      repeat constructor; eapply has_key_lookup; eassumption. }
  rewrite require_sub_fields_present, seq_next.
  2:{ eapply Forall_impl; [|exact Hkeys].
      intros field (v & Hv & Hpk & Hauth). exists v. split; [exact Hv|].
      repeat constructor; assumption. }
  rewrite require_sub_fields_present, seq_next.
  2:{ constructor; [|constructor]. exists (VDict meta). split; [exact Hmeta|].
      constructor; [|constructor]. eapply py_contains_lookup. exact Hemail. }
  rewrite (signatures_check _ _ _ _ Hsigs).
  rewrite (py_getitem_lookup _ _ _ Hvp), (py_getitem_lookup _ _ _ Hc),
    (py_getitem_lookup _ _ _ Hm), (py_getitem_lookup _ _ _ Haddr),
    (py_getitem_lookup _ _ _ Hmeta).
  cbn [bind].
  destruct (py_float raw_c) as [c|e]; cbn [bind]; [|reflexivity].
  destruct (py_float raw_m) as [m|e]; cbn [bind]; [|reflexivity].
  rewrite (py_getitem_lookup _ _ _ Hemail). reflexivity.
Qed.

Lemma validator_body_rates (validator : value) (c m : float) :
  sound_validator_but_rates validator c m ->
  validator_body validator =
  return_false_if (outside_unit_interval c || outside_unit_interval m).
Proof.
  intros (d & raw_c & raw_m & address & email & -> & Hp & He & Ha & Hc & Hm).
  rewrite (validator_body_present _ _ _ _ _ _ Hp), Hc, Hm. cbn [bind].
  change (py_eq (VStr "vp_user") (VStr "vp_user")) with (String.eqb "vp_user" "vp_user").
  rewrite String.eqb_refl. cbn [negb return_false_if]. rewrite seq_next.
  rewrite He, (require_hrp_ok _ _ Ha). cbn [bind negb return_false_if].
  destruct (outside_unit_interval c), (outside_unit_interval m); reflexivity.
Qed.

Lemma check_validator_unfold (d : dict) (entries : list value) :
  check_if_account_is_valid (VDict d) = Ok true ->
  has_key "bond" d = false ->
  lookup "validator_account" d = Some (VList entries) ->
  check_if_validator_is_valid (VDict d) =
  returning_true (for_each validator_body entries).
Proof.
  intros Hacc Hbond Hd. unfold check_if_validator_is_valid.
  rewrite Hacc. cbn [bind negb]. rewrite py_contains_dict, Hbond. cbn [bind].
  rewrite (py_getitem_lookup _ _ _ Hd). reflexivity.
Qed.

(** C6.  For a validator entry that passes every other check, the loop body
    returns [False] exactly when the commission rate or the maximal change
    lies outside the closed interval from 0 to 1, each field on its own; a
    record with one such entry, a valid account part and no [bond] key is
    accepted exactly when both lie inside.  The bounds are exact: [0] and
    [1] are inside, [1.0001] and [-0.0001] are outside. *)
Theorem commission_rates_in_closed_unit_interval
    (d : dict) (validator : value) (c m : float) :
  check_if_account_is_valid (VDict d) = Ok true ->
  has_key "bond" d = false ->
  lookup "validator_account" d = Some (VList [validator]) ->
  sound_validator_but_rates validator c m ->
  validator_body validator =
    return_false_if (outside_unit_interval c || outside_unit_interval m) /\
  check_if_validator_is_valid (VDict d) =
    Ok (negb (outside_unit_interval c) && negb (outside_unit_interval m)) /\
  outside_unit_interval c =
    negb (num_le (NInt 0) (NFloat c) && num_le (NFloat c) (NInt 1)) /\
  outside_unit_interval 1%float = false /\
  outside_unit_interval 0%float = false /\
  outside_unit_interval 1.0001%float = true /\
  outside_unit_interval (-0.0001)%float = true.
Proof.
  intros Hacc Hbond Hd Hv.
  pose proof (validator_body_rates _ _ _ Hv) as Hbody.
  split; [exact Hbody|]. split.
  - rewrite (check_validator_unfold _ _ Hacc Hbond Hd). cbn [for_each].
    rewrite Hbody.
    destruct (outside_unit_interval c), (outside_unit_interval m); reflexivity.
  - repeat split; vm_compute; reflexivity.
Qed.

(** C7, as amended.  A validator record with a top-level [bond] key is never
    accepted: [check_if_validator_is_valid] returns [False] whenever the
    account pass over the record returns a verdict, and raises the account
    pass's exception when that pass raises. *)
Theorem bond_key_never_accepted (d : dict) :
  has_key "bond" d = true ->
  (forall b, check_if_account_is_valid (VDict d) = Ok b ->
             check_if_validator_is_valid (VDict d) = Ok false) /\
  (forall e, check_if_account_is_valid (VDict d) = Raise e ->
             check_if_validator_is_valid (VDict d) = Raise e).
Proof.
  intros Hbond. unfold check_if_validator_is_valid. split.
  - intros b ->. cbn [bind]. destruct b; cbn [negb]; [|reflexivity].
    rewrite py_contains_dict, Hbond. reflexivity.
  - intros e ->. reflexivity.
Qed.






End ValidatorEntryFacts.

Lemma example_validator_fields_present (rate change : value) :
  validator_fields_present (example_validator_fields rate change)
    (VStr "vp_user") rate change (VStr "tnam1mr8wrerwec5m4f") (VStr "alice@example.org").
Proof.
  exists (VStr "sig"), [], [("email", VStr "alice@example.org")].
  split; [|repeat split; reflexivity].
  repeat constructor; exists example_key; repeat split; reflexivity.
Qed.

Lemma example_validator_sound :
  @sound_validator_but_rates reference_runtime
    (example_validator (VFloat 1%float) (VStr "1.0")) 1%float 1%float.
Proof.
  exists (example_validator_fields (VFloat 1%float) (VStr "1.0")),
    (VFloat 1%float), (VStr "1.0"), (VStr "tnam1mr8wrerwec5m4f"), (VStr "alice@example.org").
  split; [reflexivity|]. split; [apply example_validator_fields_present|].
  repeat split; vm_compute; reflexivity.
Qed.

Lemma example_validators_account_part (rate change : value) :
  @check_if_account_is_valid reference_runtime (VDict (example_validators rate change))
  = Ok true.
Proof. vm_compute. reflexivity. Qed.

Lemma commission_rates_in_closed_unit_interval_witness :
  @check_if_validator_is_valid reference_runtime
    (VDict (example_validators (VFloat 1%float) (VStr "1.0"))) = Ok true.
Proof.
  destruct (@commission_rates_in_closed_unit_interval reference_runtime
              (example_validators (VFloat 1%float) (VStr "1.0"))
              (example_validator (VFloat 1%float) (VStr "1.0")) 1%float 1%float
              (example_validators_account_part _ _) eq_refl eq_refl
              example_validator_sound)
    as (_ & H & _).
  exact H.
Defined.

Lemma bond_key_never_accepted_witness :
  @check_if_validator_is_valid reference_runtime
    (VDict (("bond", VList []) :: example_validators (VFloat 1%float) (VStr "1.0")))
  = Ok false.
Proof.
  destruct (@bond_key_never_accepted reference_runtime
              (("bond", VList []) :: example_validators (VFloat 1%float) (VStr "1.0"))
              eq_refl) as [H _].
  exact (H true eq_refl).
Defined.

(** C7, the claim as stated fails: a validator record with a [bond] key and
    no [established_account] key raises [KeyError], and one whose account
    entry has a string for threshold raises [TypeError]; neither returns
    [False]. *)
Lemma bond_key_counterexample :
  @check_if_validator_is_valid reference_runtime
    (VDict [("bond", VList []);
            ("validator_account",
             VList [example_validator (VFloat 1%float) (VStr "1.0")])])
  = Raise KeyError /\
  @check_if_validator_is_valid reference_runtime
    (VDict [("established_account", VList [string_threshold_entry]);
            ("bond", VList []);
            ("validator_account",
             VList [example_validator (VFloat 1%float) (VStr "1.0")])])
  = Raise TypeError.
Proof. split; vm_compute; reflexivity. Qed.



(** ** The dispatcher *)

Lemma opens_app (path : string) (t t' : list event) :
  opens path (t ++ t')%list = (opens path t + opens path t')%nat.
Proof.
  induction t as [|[f|p|l] t IH]; cbn; rewrite ?IH; try reflexivity.
  destruct (String.eqb p path); reflexivity.
Qed.

Lemma printed_app (t t' : list event) :
  printed (t ++ t')%list = (printed t ++ printed t')%list.
Proof.
  induction t as [|[f|p|l] t IH]; cbn; rewrite ?IH; reflexivity.
Qed.

Lemma io_bind_trace {A B : Type} (m : io A) (k : A -> io B) :
  fst (io_bind m k) =
  match snd m with
  | Ok a => (fst m ++ fst (k a))%list
  | Raise _ => fst m
  end.
Proof.
  destruct m as [t [a|e]]; cbn; [|reflexivity].
  destruct (k a); reflexivity.
Qed.

Lemma io_bind_result {A B : Type} (m : io A) (k : A -> io B) :
  snd (io_bind m k) =
  match snd m with
  | Ok a => snd (k a)
  | Raise e => Raise e
  end.
Proof.
  destruct m as [t [a|e]]; cbn; [|reflexivity].
  destruct (k a); reflexivity.
Qed.

Lemma io_bind_event {A B : Type} (ev : event) (a : A) (k : A -> io B) :
  io_bind ([ev], Ok a) k = (ev :: fst (k a), snd (k a)).
Proof. cbn. destruct (k a); reflexivity. Qed.

Lemma io_bind_silent {A B : Type} (a : A) (k : A -> io B) :
  io_bind ([], Ok a) k = k a.
Proof. cbn. destruct (k a); reflexivity. Qed.

Lemma read_unsafe_toml_event (w : world) (file : string) :
  read_unsafe_toml w file =
  ([EvOpen file],
   Ok (match toml_load w file with Some d => VDict d | None => VNone end)).
Proof.
  unfold read_unsafe_toml, load_toml. destruct (toml_load w file); reflexivity.
Qed.

Section DispatcherFacts.
Context `{RT : Runtime}.

Lemma validate_toml_on_track
    (w : world) (file : string) (cv cb ca : option string) (t : track)
    (bal : dict) (token nam : value) :
  toml_load w balances_path = Some bal ->
  lookup "token" bal = Some token ->
  py_getitem token (VStr "NAM") = Ok nam ->
  track_of file cv cb ca = Some t ->
  validate_toml w file cv cb ca =
  (EvOpen balances_path :: fst (track_steps w file t nam),
   snd (track_steps w file t nam)).
Proof.
  intros Hbal Htok Hnam Ht. unfold balances_path in *.
  unfold validate_toml, load_toml. rewrite Hbal, io_bind_event.
  unfold lift. rewrite (py_getitem_lookup _ _ _ Htok), io_bind_silent.
  rewrite Hnam, io_bind_silent.
  unfold track_of in Ht.
  destruct (is_substring "-account.toml" file && env_truthy ca).
  { injection Ht as <-. reflexivity. }
  destruct (is_substring "-validator.toml" file && env_truthy cv).
  { injection Ht as <-. reflexivity. }
  destruct (is_substring "-bond.toml" file && env_truthy cb).
  { injection Ht as <-. reflexivity. }
  discriminate.
Qed.

Lemma validate_toml_off_track
    (w : world) (file : string) (cv cb ca : option string)
    (bal : dict) (token nam : value) :
  toml_load w balances_path = Some bal ->
  lookup "token" bal = Some token ->
  py_getitem token (VStr "NAM") = Ok nam ->
  track_of file cv cb ca = None ->
  validate_toml w file cv cb ca = ([EvOpen balances_path], Ok (VBool false)).
Proof.
  intros Hbal Htok Hnam Ht. unfold balances_path in *.
  unfold validate_toml, load_toml. rewrite Hbal, io_bind_event.
  unfold lift. rewrite (py_getitem_lookup _ _ _ Htok), io_bind_silent.
  rewrite Hnam, io_bind_silent.
  unfold track_of in Ht.
  destruct (is_substring "-account.toml" file && env_truthy ca); [discriminate|].
  destruct (is_substring "-validator.toml" file && env_truthy cv); [discriminate|].
  destruct (is_substring "-bond.toml" file && env_truthy cb); [discriminate|].
  reflexivity.
Qed.

Lemma run_validator_none (t : track) (nam : value) :
  run_validator t VNone nam = Raise TypeError.
Proof. destruct t; reflexivity. Qed.

(** C1, what the script does.  On a matching, enabled track, when the
    loader returns [None], [validate_toml] prints the line that the file is
    not valid and then calls the track's validator on [None] all the same;
    the validator raises [TypeError] on its first subscript, and the
    exception leaves [validate_toml]. *)
Theorem malformed_file_reaches_validator
    (w : world) (file : string) (cv cb ca : option string) (t : track)
    (bal : dict) (token nam : value) :
  toml_load w balances_path = Some bal ->
  lookup "token" bal = Some token ->
  py_getitem token (VStr "NAM") = Ok nam ->
  track_of file cv cb ca = Some t ->
  toml_load w file = None ->
  validate_toml w file cv cb ca =
    ([EvOpen balances_path; EvOpen file; EvPrint (not_valid file)], Raise TypeError) /\
  run_validator t VNone nam = Raise TypeError.
Proof.
  intros Hbal Htok Hnam Ht Hfile. split; [|apply run_validator_none].
  rewrite (validate_toml_on_track _ _ _ _ _ _ _ _ _ Hbal Htok Hnam Ht).
  unfold track_steps. rewrite read_unsafe_toml_event, Hfile.
  rewrite io_bind_event.
  replace (match t with Bond => negb (py_truthy VNone) | _ => is_none VNone end)
    with true by (destruct t; reflexivity).
  unfold print_if, print. rewrite io_bind_event.
  rewrite run_validator_none. reflexivity.
Qed.

(** C2, what the script does.  On a matching, enabled track, when the file
    loads and the track's validator returns a verdict, [validate_toml]
    prints one line for [True], that the file is valid, and two lines for
    [False]: that the file is not valid, and then that it is valid. *)
Theorem verdict_lines
    (w : world) (file : string) (cv cb ca : option string) (t : track)
    (bal doc : dict) (token nam : value) (b : bool) :
  toml_load w balances_path = Some bal ->
  lookup "token" bal = Some token ->
  py_getitem token (VStr "NAM") = Ok nam ->
  track_of file cv cb ca = Some t ->
  toml_load w file = Some doc ->
  run_validator t (VDict doc) nam = Ok b ->
  snd (validate_toml w file cv cb ca) = Ok VNone /\
  printed (fst (validate_toml w file cv cb ca)) =
    (if b then [valid file] else [not_valid file; valid file]).
Proof.
  intros Hbal Htok Hnam Ht Hfile Hrun.
  rewrite (validate_toml_on_track _ _ _ _ _ _ _ _ _ Hbal Htok Hnam Ht).
  unfold track_steps. rewrite read_unsafe_toml_event, Hfile.
  rewrite io_bind_event.
  replace (match t with Bond => negb (py_truthy (VDict doc)) | _ => is_none (VDict doc) end)
    with false.
  2:{ destruct t; try reflexivity.
      destruct doc; [cbn in Hrun; discriminate | reflexivity]. }
  unfold print_if, pass, io_ret. rewrite io_bind_silent.
  rewrite Hrun. unfold lift. rewrite io_bind_silent.
  destruct b; cbn; split; reflexivity.
Qed.

Lemma track_of_balances (cv cb ca : option string) :
  track_of balances_path cv cb ca = None.
Proof. reflexivity. Qed.

Lemma opens_track_steps (w : world) (file : string) (t : track) (nam : value) :
  String.eqb file balances_path = false ->
  opens balances_path (fst (track_steps w file t nam)) = O.
Proof.
  intros Hne. unfold track_steps. rewrite read_unsafe_toml_event.
  set (doc := match toml_load w file with Some d => VDict d | None => VNone end).
  rewrite io_bind_event. cbn [fst opens]. rewrite Hne. cbn [Nat.add].
  unfold print_if, print, pass, io_ret, lift.
  destruct (match t with Bond => negb (py_truthy doc) | _ => is_none doc end);
    rewrite ?io_bind_event, ?io_bind_silent; cbn [fst opens];
    (destruct (run_validator t doc nam) as [[|]|e]; cbn; reflexivity).
Qed.

(** Every call of [validate_toml] opens the balances file exactly once. *)
Lemma validate_toml_opens_balances_once
    (w : world) (file : string) (cv cb ca : option string) :
  opens balances_path (fst (validate_toml w file cv cb ca)) = 1%nat.
Proof.
  destruct (toml_load w balances_path) as [bal|] eqn:Hbal.
  2:{ unfold validate_toml, load_toml. unfold balances_path in Hbal. rewrite Hbal.
      reflexivity. }
  destruct (py_getitem (VDict bal) (VStr "token")) as [token|e] eqn:Htok.
  2:{ unfold validate_toml, load_toml. unfold balances_path in Hbal. rewrite Hbal.
      rewrite io_bind_event. unfold lift. rewrite Htok. reflexivity. }
  destruct (py_getitem token (VStr "NAM")) as [nam|e] eqn:Hnam.
  2:{ unfold validate_toml, load_toml. unfold balances_path in Hbal. rewrite Hbal.
      rewrite io_bind_event. unfold lift. rewrite Htok, io_bind_silent, Hnam.
      reflexivity. }
  assert (Htok' : lookup "token" bal = Some token).
  { cbn in Htok. destruct (lookup "token" bal); congruence. }
  destruct (track_of file cv cb ca) as [t|] eqn:Ht.
  - rewrite (validate_toml_on_track _ _ _ _ _ _ _ _ _ Hbal Htok' Hnam Ht).
    cbn [fst opens]. rewrite String.eqb_refl.
    rewrite opens_track_steps; [reflexivity|].
    destruct (String.eqb file balances_path) eqn:He; [|reflexivity].
    apply String.eqb_eq in He. subst file.
    rewrite track_of_balances in Ht. discriminate.
  - rewrite (validate_toml_off_track w file cv cb ca bal token nam Hbal Htok' Hnam Ht). reflexivity.
Qed.

End DispatcherFacts.

(** ** The run *)

Lemma opens_io_bind {A B : Type} (path : string) (m : io A) (k : A -> io B) :
  opens path (fst (io_bind m k)) =
  (opens path (fst m) +
   match snd m with
   | Ok a => opens path (fst (k a))
   | Raise _ => 0
   end)%nat.
Proof.
  rewrite io_bind_trace. destruct (snd m); [apply opens_app | lia].
Qed.

Lemma io_bind_ok {A B : Type} (m : io A) (k : A -> io B) (b : B) :
  snd (io_bind m k) = Ok b -> exists a, snd m = Ok a /\ snd (k a) = Ok b.
Proof.
  rewrite io_bind_result. destruct (snd m) as [a|e]; [eauto | discriminate].
Qed.

Section RunFacts.
Context `{RT : Runtime}.

(** An iteration of the loop of [main] that ends normally opens the
    balances file once, unless the file name holds [scripts] or [yml]. *)
Lemma main_body_opens (w : world) (alias : string) (cv cb ca : option string)
    (file : string) :
  snd (main_body w alias cv cb ca file) = Ok tt ->
  opens balances_path (fst (main_body w alias cv cb ca file)) =
  if skipped file then O else 1%nat.
Proof.
  unfold main_body, skipped, pass, io_ret, exit, lift, print.
  destruct (re_search FILE_NAME_PATTER file).
  2:{ cbn. discriminate. }
  rewrite io_bind_silent.
  destruct (nth_error (split "/"%char file) 1) as [second|].
  2:{ cbn. discriminate. }
  rewrite io_bind_silent.
  destruct (negb (is_substring (lower alias) (lower (hd "" (split "."%char second))))).
  { cbn. discriminate. }
  rewrite io_bind_silent, io_bind_event. cbn [fst snd opens].
  destruct (is_substring "scripts" file || is_substring "yml" file); [reflexivity|].
  intros _. rewrite opens_io_bind, validate_toml_opens_balances_once.
  destruct (snd (validate_toml w file cv cb ca)); reflexivity.
Qed.

Lemma loop_opens (w : world) (alias : string) (cv cb ca : option string)
    (files : list string) :
  snd (io_for_each (main_body w alias cv cb ca) files) = Ok tt ->
  opens balances_path (fst (io_for_each (main_body w alias cv cb ca) files)) =
  List.length (dispatched files).
Proof.
  induction files as [|file files IH]; cbn [io_for_each]; intros Hok; [reflexivity|].
  apply io_bind_ok in Hok. destruct Hok as ([] & Hbody & Hrest).
  rewrite opens_io_bind, Hbody, (main_body_opens _ _ _ _ _ _ Hbody), (IH Hrest).
  unfold dispatched at 2. cbn [filter].
  destruct (skipped file); reflexivity.
Qed.

(** *** The bond check and the table *)

Lemma balance_of_on_spec (source table : value) :
  balance_of_on source table = (balance_of table source, table).
Proof.
  unfold balance_of_on, balance_of, t_bind, table_contains, table_getitem, t_lift, t_ret.
  destruct (py_contains source table) as [[|]|e]; cbn [bind]; try reflexivity.
  destruct (py_getitem table source) as [raw|e]; cbn [bind]; [|reflexivity].
  destruct (py_float raw); reflexivity.
Qed.

Lemma t_for_each_spec {A : Type} (body_on : A -> t_stmt) (body : value -> A -> stmt)
    (xs : list A) (table : value) :
  (forall x, body_on x table = (body table x, table)) ->
  t_for_each body_on xs table = (for_each (body table) xs, table).
Proof.
  intros H. induction xs as [|x xs IH]; cbn [t_for_each for_each]; [reflexivity|].
  unfold t_seq, t_bind. rewrite H.
  destruct (body table x) as [[b|]|e]; cbn; [reflexivity | exact IH | reflexivity].
Qed.

Lemma bond_body_on_spec (bond table : value) :
  bond_body_on bond table = (bond_body table bond, table).
Proof.
  unfold bond_body_on, bond_body, t_seq, t_bind, t_lift, t_ret.
  destruct (require_fields _ bond) as [[b|]|e]; cbn [seq bind]; try reflexivity.
  destruct (py_getitem bond (VStr "signatures")) as [sigs|e]; cbn [bind]; [|reflexivity].
  destruct (py_len sigs) as [n|e]; cbn [bind]; [|reflexivity].
  destruct (return_false_if (n <=? 0)) as [[b|]|e]; cbn [seq bind]; try reflexivity.
  destruct (py_getitem bond (VStr "source")) as [source|e]; cbn [bind]; [|reflexivity].
  destruct (py_getitem bond (VStr "validator")) as [validator|e]; cbn [bind]; [|reflexivity].
  destruct (py_getitem bond (VStr "amount")) as [raw|e]; cbn [bind]; [|reflexivity].
  destruct (py_float raw) as [amount|e]; cbn [bind]; [|reflexivity].
  rewrite balance_of_on_spec.
  destruct (balance_of table source) as [balance|e]; cbn [bind]; [|reflexivity].
  destruct (return_false_if (balance_rejects balance amount)) as [[b|]|e];
    cbn [seq bind]; try reflexivity.
  destruct (require_hrp source "tkpnam") as [[b|]|e]; cbn [seq bind]; reflexivity.
Qed.

(** The bond check with the table as state returns what
    [check_if_bond_is_valid] returns and leaves the table as it found it. *)
Lemma check_if_bond_is_valid_on_spec (bonds_toml table : value) :
  check_if_bond_is_valid_on bonds_toml table =
  (check_if_bond_is_valid bonds_toml table, table).
Proof.
  unfold check_if_bond_is_valid_on, check_if_bond_is_valid, returning_true.
  unfold t_bind at 1 2 3. unfold t_lift, t_ret.
  destruct (py_getitem bonds_toml (VStr "bond")) as [bonds|e]; cbn [bind]; [|reflexivity].
  destruct (py_iter bonds) as [entries|e]; cbn [bind]; [|reflexivity].
  rewrite (t_for_each_spec bond_body_on bond_body entries table
             (fun x => bond_body_on_spec x table)).
  destruct (for_each (bond_body table) entries) as [r|e]; reflexivity.
Qed.

(** C9, as amended.  The balances file is opened once by every call of
    [validate_toml], whatever the file and the flags; so a run of [main]
    that ends normally opens it once for every new file it hands to
    [validate_toml], not once for the run.  The table is not changed: on
    the bond track the bond check runs on the [NAM] table as loaded, the
    other two checks are not handed it, and the bond check, read with the
    table as state, returns the verdict of [check_if_bond_is_valid] and
    leaves the table as it found it, whatever the record and the table. *)
Theorem balances_loaded_per_file (w : world) (t : list event) :
  main w = (t, Ok tt) ->
  opens balances_path t = List.length (dispatched (snd (git_diff w "A"))) /\
  (forall (file : string) (cv cb ca : option string),
      opens balances_path (fst (validate_toml w file cv cb ca)) = 1%nat) /\
  (forall (file : string) (cv cb ca : option string) (bal doc : dict)
          (token nam : value),
      toml_load w balances_path = Some bal ->
      lookup "token" bal = Some token ->
      py_getitem token (VStr "NAM") = Ok nam ->
      track_of file cv cb ca = Some Bond ->
      toml_load w file = Some doc ->
      snd (validate_toml w file cv cb ca) =
        (_ <- fst (check_if_bond_is_valid_on (VDict doc) nam) ;; Ok VNone) /\
      snd (check_if_bond_is_valid_on (VDict doc) nam) = nam) /\
  (forall bonds_toml table : value,
      check_if_bond_is_valid_on bonds_toml table =
      (check_if_bond_is_valid bonds_toml table, table)).
Proof.
  intros Hmain.
  split; [|split; [intros; apply validate_toml_opens_balances_once|split]].
  3:{ intros. apply check_if_bond_is_valid_on_spec. }
  2:{ intros file cv cb ca bal doc token nam Hbal Htok Hnam Ht Hfile.
      rewrite check_if_bond_is_valid_on_spec. cbn [fst snd]. split; [|reflexivity].
      rewrite (validate_toml_on_track _ _ _ _ _ _ _ _ _ Hbal Htok Hnam Ht). cbn [snd].
      unfold track_steps. rewrite read_unsafe_toml_event, Hfile.
      rewrite io_bind_event. cbn [snd].
      assert (Hp : forall c line, snd (print_if c line) = Ok tt)
        by (intros [|] line; reflexivity).
      rewrite io_bind_result, Hp, io_bind_result. unfold lift. cbn [snd run_validator].
      destruct (check_if_bond_is_valid (VDict doc) nam) as [b|e]; cbn [bind];
        [|reflexivity].
      rewrite io_bind_result, Hp. reflexivity. }
  assert (Ht : t = fst (main w)) by (rewrite Hmain; reflexivity).
  assert (Hok : snd (main w) = Ok tt) by (rewrite Hmain; reflexivity).
  clear Hmain. subst t. unfold main in *.
  apply io_bind_ok in Hok. destruct Hok as ([] & H1 & Hok).
  rewrite opens_io_bind, H1.
  assert (E1 : opens balances_path (fst (check_no_deleted_or_modified_files w)) = O).
  { unfold check_no_deleted_or_modified_files, run_git_diff. rewrite io_bind_event.
    cbn [fst snd opens]. destruct (fst (git_diff w "DM") >? 0); [reflexivity|].
    destruct (snd (git_diff w "DM")); reflexivity. }
  rewrite E1. unfold read_env, io_ret in *. rewrite io_bind_silent in *.
  apply io_bind_ok in Hok. destruct Hok as (files & H2 & Hok).
  rewrite opens_io_bind, H2.
  assert (E2 : opens balances_path (fst (get_all_created_files w)) = O /\
               files = snd (git_diff w "A")).
  { revert H2. unfold get_all_created_files, run_git_diff. rewrite io_bind_event.
    cbn [fst snd opens]. destruct (fst (git_diff w "A") >? 0); cbn.
    - discriminate.
    - intros [= <-]. split; reflexivity. }
  destruct E2 as [E2 ->]. rewrite E2.
  apply io_bind_ok in Hok. destruct Hok as (alias & H3 & Hok).
  rewrite opens_io_bind, H3.
  assert (E3 : opens balances_path (fst (get_alias w)) = O).
  { unfold get_alias. destruct (environ w "ALIAS"); reflexivity. }
  rewrite E3. unfold print in *. rewrite io_bind_event in *.
  cbn [fst snd opens Nat.add] in *.
  apply loop_opens. exact Hok.
Qed.

End RunFacts.

Lemma balances_loaded_per_file_witness :
  opens balances_path (fst (@main reference_runtime example_world)) =
  List.length (dispatched (snd (git_diff example_world "A"))) /\
  @check_if_bond_is_valid_on reference_runtime (VDict (example_bonds (VStr "100")))
    example_nam_balances = (Ok true, example_nam_balances).
Proof.
  destruct (@balances_loaded_per_file reference_runtime example_world
              (fst (@main reference_runtime example_world)))
    as (H1 & _ & _ & H4).
  - vm_compute. reflexivity.
  - split; [exact H1|]. rewrite H4. vm_compute. reflexivity.
Defined.

(** C9, the claim as stated fails: a run over two new files opens the
    balances file twice. *)
Lemma balances_loaded_once_counterexample :
  snd (@main reference_runtime example_world) = Ok tt /\
  snd (git_diff example_world "A") =
    ["transactions/alice-account.toml"; "transactions/alice-bond.toml"] /\
  opens balances_path (fst (@main reference_runtime example_world)) = 2%nat.
Proof. repeat split; vm_compute; reflexivity. Qed.

Lemma malformed_file_reaches_validator_witness :
  @validate_toml reference_runtime example_world "transactions/alice-validator.toml"
    (Some "true") (Some "true") (Some "true") =
  ([EvOpen balances_path; EvOpen "transactions/alice-validator.toml";
    EvPrint (not_valid "transactions/alice-validator.toml")], Raise TypeError) /\
  @run_validator reference_runtime Validator VNone example_nam_balances = Raise TypeError.
Proof.
  apply (@malformed_file_reaches_validator reference_runtime example_world
           "transactions/alice-validator.toml" (Some "true") (Some "true") (Some "true")
           Validator example_balances (VDict [("NAM", example_nam_balances)])
           example_nam_balances); reflexivity.
Defined.

Lemma verdict_lines_witness :
  snd (@validate_toml reference_runtime example_world
         "transactions/alice-rejected-account.toml" None None (Some "true")) = Ok VNone /\
  printed (fst (@validate_toml reference_runtime example_world
                  "transactions/alice-rejected-account.toml" None None (Some "true"))) =
  [not_valid "transactions/alice-rejected-account.toml";
   valid "transactions/alice-rejected-account.toml"].
Proof.
  apply (@verdict_lines reference_runtime example_world
           "transactions/alice-rejected-account.toml" None None (Some "true")
           Account example_balances [("established_account", VList [empty_entry])]
           (VDict [("NAM", example_nam_balances)]) example_nam_balances false);
    reflexivity.
Defined.

(** * Further properties of the script *)

(** ** The three validators on edge inputs *)

Lemma require_fields_missing (fields : list string) (d : dict) (field : string) :
  In field fields -> has_key field d = false ->
  require_fields fields (VDict d) = ret_false.
Proof.
  intros Hin Hmiss. rewrite require_fields_dict.
  replace (forallb (fun f => has_key f d) fields) with false; [reflexivity|].
  symmetry. apply not_true_is_false. intros H.
  rewrite forallb_forall in H. specialize (H field Hin). congruence.
Qed.

Lemma py_getitem_missing (d : dict) (k : string) :
  has_key k d = false -> py_getitem (VDict d) (VStr k) = Raise KeyError.
Proof.
  unfold has_key. intros H. cbn. destruct (lookup k d); [discriminate | reflexivity].
Qed.

Section EdgeFacts.
Context `{RT : Runtime}.

(** X1.  A record whose sequence of entries is empty is accepted by each of the
    three validators: with nothing to iterate over, the loop is skipped and
    the function returns [True]. *)
Theorem empty_sequence_accepted (d : dict) (entries : value) :
  py_iter entries = Ok [] ->
  (lookup "established_account" d = Some entries ->
   check_if_account_is_valid (VDict d) = Ok true) /\
  (lookup "established_account" d = Some entries ->
   has_key "bond" d = false ->
   lookup "validator_account" d = Some entries ->
   check_if_validator_is_valid (VDict d) = Ok true) /\
  (forall balances,
      lookup "bond" d = Some entries ->
      check_if_bond_is_valid (VDict d) balances = Ok true).
Proof.
  intros Hit.
  assert (Hacc : lookup "established_account" d = Some entries ->
                 check_if_account_is_valid (VDict d) = Ok true).
  { intros H. unfold check_if_account_is_valid.
    rewrite (py_getitem_lookup _ _ _ H). cbn [bind]. rewrite Hit. reflexivity. }
  split; [exact Hacc|]. split.
  - intros H Hbond Hv. unfold check_if_validator_is_valid.
    rewrite (Hacc H). cbn [bind negb]. rewrite py_contains_dict, Hbond. cbn [bind].
    rewrite (py_getitem_lookup _ _ _ Hv). cbn [bind]. rewrite Hit. reflexivity.
  - intros balances H. unfold check_if_bond_is_valid.
    rewrite (py_getitem_lookup _ _ _ H). cbn [bind]. rewrite Hit. reflexivity.
Qed.

(** X2.  A record without the key of its sequence is not rejected with [False]:
    the unguarded subscript raises [KeyError].  For a validator record this
    holds for [established_account], which the account pass reads first,
    and for [validator_account] once the account pass has accepted. *)
Theorem missing_sequence_raises (d : dict) :
  (has_key "established_account" d = false ->
   check_if_account_is_valid (VDict d) = Raise KeyError /\
   check_if_validator_is_valid (VDict d) = Raise KeyError) /\
  (check_if_account_is_valid (VDict d) = Ok true ->
   has_key "bond" d = false ->
   has_key "validator_account" d = false ->
   check_if_validator_is_valid (VDict d) = Raise KeyError) /\
  (forall balances,
      has_key "bond" d = false ->
      check_if_bond_is_valid (VDict d) balances = Raise KeyError).
Proof.
  repeat split.
  - unfold check_if_account_is_valid. rewrite (py_getitem_missing _ _ H). reflexivity.
  - unfold check_if_validator_is_valid, check_if_account_is_valid.
    rewrite (py_getitem_missing _ _ H). reflexivity.
  - intros Hacc Hbond Hv. unfold check_if_validator_is_valid.
    rewrite Hacc. cbn [bind negb]. rewrite py_contains_dict, Hbond. cbn [bind].
    rewrite (py_getitem_missing _ _ Hv). reflexivity.
  - intros balances H. unfold check_if_bond_is_valid.
    rewrite (py_getitem_missing _ _ H). reflexivity.
Qed.

(** X3.  An entry that is a table and lacks one of the required fields makes the
    loop body return [False]; nothing is raised, whatever the other fields
    hold. *)
Theorem missing_field_rejected (d : dict) (field : string) :
  has_key field d = false ->
  (In field ["vp"; "threshold"; "public_keys"] -> account_body (VDict d) = ret_false) /\
  (In field validator_fields -> validator_body (VDict d) = ret_false) /\
  (forall balances,
      In field ["source"; "validator"; "amount"; "signatures"] ->
      bond_body balances (VDict d) = ret_false).
Proof.
  intros Hmiss. repeat split.
  - intros Hin. unfold account_body.
    rewrite (require_fields_missing _ _ _ Hin Hmiss). reflexivity.
  - intros Hin. unfold validator_body.
    rewrite (require_fields_missing _ _ _ Hin Hmiss). reflexivity.
  - intros balances Hin. unfold bond_body.
    rewrite (require_fields_missing _ _ _ Hin Hmiss). reflexivity.
Qed.

Lemma for_each_require_hrp (keys : list value) (hrps : list (option string))
    (expected : string) :
  Forall2 (fun k h => bech32_decode k = Ok h) keys hrps ->
  for_each (fun k => require_hrp k expected) keys =
  return_false_if (negb (forallb (fun h => hrp_is h expected) hrps)).
Proof.
  induction 1 as [|k h keys hrps Hk _ IH]; [reflexivity|].
  cbn [for_each forallb]. unfold require_hrp at 1. rewrite Hk. cbn [bind].
  destruct (hrp_is h expected); cbn [negb return_false_if andb];
    [rewrite seq_next; exact IH | reflexivity].
Qed.

(** X4.  The verdict on an account entry with the three fields, an integer
    threshold and a list of keys that the decoder answers without raising:
    the body returns [False] unless [vp] is [vp_user], the threshold lies
    between one and the number of keys, and every key has the prefix
    [tnam]. *)
Theorem account_entry_verdict
    (d : dict) (vp : value) (t : Z) (keys : list value) (hrps : list (option string)) :
  lookup "vp" d = Some vp ->
  lookup "threshold" d = Some (VInt t) ->
  lookup "public_keys" d = Some (VList keys) ->
  Forall2 (fun k h => bech32_decode k = Ok h) keys hrps ->
  account_body (VDict d) =
  return_false_if
    (negb (py_eq vp (VStr "vp_user") &&
           (t <=? Z.of_nat (List.length keys)) && (0 <? t) &&
           forallb (fun h => hrp_is h "tnam") hrps)).
Proof.
  intros Hvp Hth Hpk Hkeys. unfold account_body.
  rewrite require_fields_present, seq_next.
  2:{ repeat constructor; eapply has_key_lookup; eassumption. }
  rewrite (py_getitem_lookup _ _ _ Hvp), (py_getitem_lookup _ _ _ Hth),
    (py_getitem_lookup _ _ _ Hpk).
  cbn [bind py_len py_num_op as_num py_iter].
  rewrite num_lt_int, num_le_int, (for_each_require_hrp _ _ _ Hkeys).
  destruct (py_eq vp (VStr "vp_user")); cbn [negb return_false_if andb]; [|reflexivity].
  rewrite seq_next.
  destruct (Z.ltb_spec (Z.of_nat (Datatypes.length keys)) t) as [Hlt|Hge].
  { replace (t <=? Z.of_nat (Datatypes.length keys)) with false
      by (symmetry; apply Z.leb_gt; lia).
    reflexivity. }
  replace (t <=? Z.of_nat (Datatypes.length keys)) with true
    by (symmetry; apply Z.leb_le; lia).
  cbn [return_false_if andb]. rewrite seq_next.
  destruct (Z.leb_spec t 0) as [Hle|Hgt].
  { replace (0 <? t) with false by (symmetry; apply Z.ltb_ge; lia). reflexivity. }
  replace (0 <? t) with true by (symmetry; apply Z.ltb_lt; lia).
  cbn [return_false_if andb]. rewrite seq_next. reflexivity.
Qed.

Lemma nan_unordered (f : float) (n : Z) :
  is_nan f = true ->
  num_lt (NInt n) (NFloat f) = false /\ num_le (NFloat f) (NInt 0) = false.
Proof.
  intros H. unfold num_lt, num_le. cbn. unfold Prim2SF. rewrite H. split; reflexivity.
Qed.

(** X5.  The type of the threshold is not checked: any number [x] for which
    neither [len(public_keys) < x] nor [x <= 0] holds passes, and both
    comparisons are false for a NaN.  So an entry whose threshold is the
    float NaN is accepted with any list of well-formed keys, the empty list
    included. *)
Theorem nan_threshold_accepted
    (d : dict) (threshold : value) (x : num) (keys : list value) :
  lookup "vp" d = Some (VStr "vp_user") ->
  lookup "threshold" d = Some threshold ->
  lookup "public_keys" d = Some (VList keys) ->
  Forall (fun k => bech32_decode k = Ok (Some "tnam")) keys ->
  as_num threshold = Some x ->
  (num_lt (NInt (Z.of_nat (List.length keys))) x = false /\ num_le x (NInt 0) = false) \/
  (exists f, x = NFloat f /\ is_nan f = true) ->
  account_body (VDict d) = next.
Proof.
  intros Hvp Hth Hpk Hkeys Hnum Hcmp.
  assert (Hc : num_lt (NInt (Z.of_nat (List.length keys))) x = false /\
               num_le x (NInt 0) = false).
  { destruct Hcmp as [H | (f & -> & Hf)]; [exact H | apply nan_unordered; exact Hf]. }
  destruct Hc as [Hlt Hle]. unfold account_body.
  rewrite require_fields_present, seq_next.
  2:{ repeat constructor; eapply has_key_lookup; eassumption. }
  rewrite (py_getitem_lookup _ _ _ Hvp), (py_getitem_lookup _ _ _ Hth),
    (py_getitem_lookup _ _ _ Hpk).
  cbn [bind py_len py_iter].
  change (py_eq (VStr "vp_user") (VStr "vp_user")) with (String.eqb "vp_user" "vp_user").
  rewrite String.eqb_refl. cbn [negb return_false_if]. rewrite seq_next.
  unfold py_num_op. cbn [as_num]. rewrite Hnum. cbn [bind]. rewrite Hlt, Hle.
  cbn [return_false_if]. rewrite !seq_next.
  apply for_each_all_next.
  eapply Forall_impl; [|exact Hkeys].
  intros k Hk. apply require_hrp_ok. exact Hk.
Qed.

(** X6.  The validator check runs the account check first and depends on it:
    a [False] or an exception of the account check is the result of the
    validator check, and a record the validator check accepts is accepted
    by the account check and has no [bond] key. *)
Theorem validator_check_extends_account_check (record : value) :
  (check_if_account_is_valid record = Ok false ->
   check_if_validator_is_valid record = Ok false) /\
  (forall e, check_if_account_is_valid record = Raise e ->
             check_if_validator_is_valid record = Raise e) /\
  (check_if_validator_is_valid record = Ok true ->
   check_if_account_is_valid record = Ok true /\
   py_contains (VStr "bond") record = Ok false).
Proof.
  unfold check_if_validator_is_valid. split; [|split].
  - intros ->. reflexivity.
  - intros e ->. reflexivity.
  - destruct (check_if_account_is_valid record) as [[|]|e]; cbn [bind negb];
      try discriminate.
    destruct (py_contains (VStr "bond") record) as [[|]|e]; cbn [bind];
      try discriminate.
    intros _. split; reflexivity.
Qed.

(** X7.  Entries are judged one by one: a list of entries is accepted exactly
    when its two halves are, for accounts and for bonds. *)
Theorem entries_judged_separately (xs ys : list value) :
  (forall d d1 d2,
      lookup "established_account" d = Some (VList (xs ++ ys)) ->
      lookup "established_account" d1 = Some (VList xs) ->
      lookup "established_account" d2 = Some (VList ys) ->
      (check_if_account_is_valid (VDict d) = Ok true <->
       check_if_account_is_valid (VDict d1) = Ok true /\
       check_if_account_is_valid (VDict d2) = Ok true)) /\
  (forall d d1 d2 balances,
      lookup "bond" d = Some (VList (xs ++ ys)) ->
      lookup "bond" d1 = Some (VList xs) ->
      lookup "bond" d2 = Some (VList ys) ->
      (check_if_bond_is_valid (VDict d) balances = Ok true <->
       check_if_bond_is_valid (VDict d1) balances = Ok true /\
       check_if_bond_is_valid (VDict d2) balances = Ok true)).
Proof.
  split.
  - intros d d1 d2 H H1 H2.
    rewrite (check_account_unfold _ _ H), (check_account_unfold _ _ H1),
      (check_account_unfold _ _ H2).
    rewrite !(loop_true_iff account_body _ never_true_account_body).
    apply Forall_app.
  - intros d d1 d2 balances H H1 H2. unfold check_if_bond_is_valid.
    rewrite (py_getitem_lookup _ _ _ H), (py_getitem_lookup _ _ _ H1),
      (py_getitem_lookup _ _ _ H2).
    cbn [bind py_iter].
    rewrite !(loop_true_iff (bond_body balances) _ (never_true_bond_body balances)).
    apply Forall_app.
Qed.

End EdgeFacts.

Section EntryFacts.
Context `{RT : Runtime}.

(** X8.  The verdict on a validator entry that passes the presence checks, with
    parseable rates, a string for email and an address that the decoder
    answers without raising: the body returns [False] unless [vp] is
    [vp_user], both rates lie in the closed unit interval, the email
    matches the pattern, and the address has the prefix [tnam]. *)
Theorem validator_entry_verdict
    (d : dict) (vp raw_c raw_m address : value) (c m : float) (email : string)
    (hrp : option string) :
  validator_fields_present d vp raw_c raw_m address (VStr email) ->
  py_float raw_c = Ok c ->
  py_float raw_m = Ok m ->
  bech32_decode address = Ok hrp ->
  validator_body (VDict d) =
  return_false_if
    (negb (py_eq vp (VStr "vp_user") &&
           negb (outside_unit_interval c) && negb (outside_unit_interval m) &&
           re_search_anchored EMAIL_PATTERN email &&
           hrp_is hrp "tnam")).
Proof.
  intros Hp Hc Hm Hh.
  rewrite (validator_body_present _ _ _ _ _ _ Hp), Hc, Hm. cbn [bind search_email].
  unfold require_hrp. rewrite Hh. cbn [bind].
  destruct (py_eq vp (VStr "vp_user")); [|reflexivity].
  destruct (outside_unit_interval c); [reflexivity|].
  destruct (outside_unit_interval m); [reflexivity|].
  destruct (re_search_anchored EMAIL_PATTERN email); [|reflexivity].
  destruct (hrp_is hrp "tnam"); reflexivity.
Qed.

(** X9.  The signature check comes before the numbers are parsed: a bond entry
    with its four fields and an empty [signatures] list, and a validator
    entry with its fields and sub-fields and an empty [signatures] list,
    make the body return [False], whatever the amount or the rates hold. *)
Theorem empty_signatures_rejected (d : dict) :
  lookup "signatures" d = Some (VList []) ->
  (forall balances,
      Forall (fun f => has_key f d = true) ["source"; "validator"; "amount"; "signatures"] ->
      bond_body balances (VDict d) = ret_false) /\
  (Forall (fun f => has_key f d = true) validator_fields ->
   validator_slots_present d ->
   validator_body (VDict d) = ret_false).
Proof.
  intros Hs. split.
  - intros balances Hf. unfold bond_body.
    rewrite (require_fields_present _ _ Hf), seq_next.
    rewrite (py_getitem_lookup _ _ _ Hs). reflexivity.
  - intros Hf (Hkeys & meta & email & Hmeta & Hemail). unfold validator_body.
    rewrite (require_fields_present _ _ Hf), seq_next.
    rewrite require_sub_fields_present, seq_next.
    2:{ eapply Forall_impl; [|exact Hkeys].
        intros field (v & Hv & Hpk & Hauth). exists v. split; [exact Hv|].
        repeat constructor; assumption. }
    rewrite require_sub_fields_present, seq_next.
    2:{ constructor; [|constructor]. exists (VDict meta). split; [exact Hmeta|].
        constructor; [|constructor]. eapply py_contains_lookup. exact Hemail. }
    rewrite (py_getitem_lookup _ _ _ Hs). reflexivity.
Qed.

(** ** The dispatcher on files it does not validate *)

(** X10.  A file that is on no enabled track (for each of the three suffixes, the
    name lacks it or its flag is unset or empty) is passed over:
    [validate_toml] reads the balances, returns [False], prints nothing and
    does not open the file. *)
Theorem off_track_file_passed_over
    (w : world) (file : string) (cv cb ca : option string)
    (bal : dict) (token nam : value) :
  toml_load w balances_path = Some bal ->
  lookup "token" bal = Some token ->
  py_getitem token (VStr "NAM") = Ok nam ->
  is_substring "-account.toml" file && env_truthy ca = false ->
  is_substring "-validator.toml" file && env_truthy cv = false ->
  is_substring "-bond.toml" file && env_truthy cb = false ->
  validate_toml w file cv cb ca = ([EvOpen balances_path], Ok (VBool false)).
Proof.
  intros Hbal Htok Hnam Ha Hv Hb. unfold balances_path in *.
  unfold validate_toml, load_toml. rewrite Hbal, io_bind_event.
  unfold lift. rewrite (py_getitem_lookup _ _ _ Htok), io_bind_silent.
  rewrite Hnam, io_bind_silent, Ha, Hv, Hb. reflexivity.
Qed.

(** X11.  The balances are read before the file is classified, so a balances
    file that does not load, or lacks the [token] table or its [NAM] entry,
    makes every call of [validate_toml] raise, also for a file it would
    pass over; nothing is printed and the file is not opened. *)
Theorem balances_failure_is_fatal
    (w : world) (file : string) (cv cb ca : option string) :
  (toml_load w balances_path = None ->
   validate_toml w file cv cb ca = ([EvOpen balances_path], Raise LoadError)) /\
  (forall bal,
      toml_load w balances_path = Some bal ->
      has_key "token" bal = false ->
      validate_toml w file cv cb ca = ([EvOpen balances_path], Raise KeyError)) /\
  (forall bal token e,
      toml_load w balances_path = Some bal ->
      lookup "token" bal = Some token ->
      py_getitem token (VStr "NAM") = Raise e ->
      validate_toml w file cv cb ca = ([EvOpen balances_path], Raise e)).
Proof.
  unfold balances_path, validate_toml, load_toml. split; [|split].
  - intros ->. reflexivity.
  - intros bal -> Hmiss. rewrite io_bind_event. unfold lift.
    rewrite (py_getitem_missing _ _ Hmiss). reflexivity.
  - intros bal token e -> Htok Hnam. rewrite io_bind_event. unfold lift.
    rewrite (py_getitem_lookup _ _ _ Htok), io_bind_silent, Hnam. reflexivity.
Qed.

(** ** The run *)

(** X13.  [main] gives up with exit status 1 before it prints anything when
    [git diff] reports deleted or modified files or fails, when the list of
    new files cannot be had, or when [ALIAS] is not set; no file is
    opened. *)
Theorem main_preconditions_fatal (w : world) :
  (0 < fst (git_diff w "DM") \/ snd (git_diff w "DM") <> [] ->
   main w = ([EvGit "DM"], Raise (SystemExit 1))) /\
  (fst (git_diff w "DM") <= 0 -> snd (git_diff w "DM") = [] ->
   0 < fst (git_diff w "A") ->
   main w = ([EvGit "DM"; EvGit "A"], Raise (SystemExit 1))) /\
  (fst (git_diff w "DM") <= 0 -> snd (git_diff w "DM") = [] ->
   fst (git_diff w "A") <= 0 ->
   environ w "ALIAS" = None ->
   main w = ([EvGit "DM"; EvGit "A"], Raise (SystemExit 1))).
Proof.
  unfold main, check_no_deleted_or_modified_files, get_all_created_files, run_git_diff,
    read_env, get_alias, io_ret, exit, pass.
  split; [|split].
  - intros H. rewrite io_bind_event. cbn [fst snd].
    destruct (Z.gtb_spec (fst (git_diff w "DM")) 0) as [Hgt|Hle]; [reflexivity|].
    destruct H as [H|H]; [lia|].
    destruct (snd (git_diff w "DM")); [congruence | reflexivity].
  - intros Hdm Hnil Ha. rewrite io_bind_event. cbn [fst snd].
    destruct (Z.gtb_spec (fst (git_diff w "DM")) 0) as [Hgt|_]; [lia|].
    rewrite Hnil. cbn [fst snd]. rewrite io_bind_silent, io_bind_event. cbn [fst snd].
    destruct (Z.gtb_spec (fst (git_diff w "A")) 0) as [_|Hle]; [reflexivity | lia].
  - intros Hdm Hnil Ha Halias. rewrite io_bind_event. cbn [fst snd].
    destruct (Z.gtb_spec (fst (git_diff w "DM")) 0) as [Hgt|_]; [lia|].
    rewrite Hnil. cbn [fst snd]. rewrite io_bind_silent, io_bind_event. cbn [fst snd].
    destruct (Z.gtb_spec (fst (git_diff w "A")) 0) as [Hgt|_]; [lia|].
    cbn [fst snd]. rewrite Halias. reflexivity.
Qed.

Lemma io_for_each_stops {A : Type} (body : A -> io unit) (xs ys : list A) (x : A) (e : exn) :
  snd (body x) = Raise e ->
  io_for_each body (xs ++ x :: ys)%list = io_for_each body (xs ++ [x])%list.
Proof.
  intros Hx. induction xs as [|a xs IH]; cbn [app io_for_each].
  - destruct (body x) as [t r]. cbn in Hx. subst r. reflexivity.
  - rewrite IH. reflexivity.
Qed.

Lemma io_for_each_raises {A : Type} (body : A -> io unit) (xs : list A) (x : A) (e : exn) :
  Forall (fun y => snd (body y) = Ok tt) xs ->
  snd (body x) = Raise e ->
  snd (io_for_each body (xs ++ [x])%list) = Raise e.
Proof.
  intros Hxs Hx. induction Hxs as [|a xs Ha _ IH]; cbn [app io_for_each].
  - rewrite io_bind_result, Hx. reflexivity.
  - rewrite io_bind_result, Ha. exact IH.
Qed.

(** X14.  An exception inside one iteration ends the loop of [main]: the files
    after the one that raised are not looked at, and the exception is the
    outcome of the loop when the files before it went through. *)
Theorem run_stops_at_first_exception
    (w : world) (alias : string) (cv cb ca : option string)
    (before after : list string) (file : string) (e : exn) :
  snd (main_body w alias cv cb ca file) = Raise e ->
  io_for_each (main_body w alias cv cb ca) (before ++ file :: after)%list =
  io_for_each (main_body w alias cv cb ca) (before ++ [file])%list /\
  (Forall (fun f => snd (main_body w alias cv cb ca f) = Ok tt) before ->
   snd (io_for_each (main_body w alias cv cb ca) (before ++ file :: after)%list)
   = Raise e).
Proof.
  intros Hx. split.
  - exact (io_for_each_stops _ before after file e Hx).
  - intros Hb. rewrite (io_for_each_stops _ before after file e Hx).
    exact (io_for_each_raises _ before file e Hb Hx).
Qed.

(** X15.  A file that a validator rejects does not end the run: when the file
    passes the name and alias tests, loads, and its validator returns a
    verdict, [True] or [False], the iteration of [main] ends normally. *)
Theorem rejected_file_does_not_stop_run
    (w : world) (alias file second : string) (cv cb ca : option string) (t : track)
    (bal doc : dict) (token nam : value) (b : bool) :
  re_search FILE_NAME_PATTER file = true ->
  nth_error (split "/"%char file) 1 = Some second ->
  is_substring (lower alias) (lower (hd "" (split "."%char second))) = true ->
  toml_load w balances_path = Some bal ->
  lookup "token" bal = Some token ->
  py_getitem token (VStr "NAM") = Ok nam ->
  track_of file cv cb ca = Some t ->
  toml_load w file = Some doc ->
  run_validator t (VDict doc) nam = Ok b ->
  snd (main_body w alias cv cb ca file) = Ok tt.
Proof.
  intros Hre Hsecond Halias Hbal Htok Hnam Ht Hfile Hrun.
  unfold main_body, pass, io_ret, exit, lift, print.
  rewrite Hre, io_bind_silent, Hsecond, io_bind_silent, Halias. cbn [negb].
  rewrite io_bind_silent, io_bind_event. cbn [snd].
  destruct (is_substring "scripts" file || is_substring "yml" file); [reflexivity|].
  rewrite io_bind_result.
  rewrite (validate_toml_on_track _ _ _ _ _ _ _ _ _ Hbal Htok Hnam Ht). cbn [snd].
  unfold track_steps. rewrite read_unsafe_toml_event, Hfile, io_bind_event. cbn [snd].
  rewrite io_bind_result.
  assert (Hp : forall c line, snd (print_if c line) = Ok tt)
    by (intros [|] line; reflexivity).
  rewrite Hp, io_bind_result. unfold lift. cbn [snd]. rewrite Hrun.
  rewrite io_bind_result, Hp. reflexivity.
Qed.

End EntryFacts.

(** ** The two patterns *)

Lemma string_app_assoc (a b c : string) :
  ((a ++ b) ++ c)%string = (a ++ (b ++ c))%string.
Proof. induction a as [|x a IH]; cbn; [reflexivity | rewrite IH; reflexivity]. Qed.

Lemma in_lang_cat (r1 r2 : regex) (s : string) :
  in_lang (RCat r1 r2) s <->
  exists s1 s2, s = (s1 ++ s2)%string /\ in_lang r1 s1 /\ in_lang r2 s2.
Proof.
  split.
  - intros H. inversion H; subst. eauto.
  - intros (s1 & s2 & -> & H1 & H2). constructor; assumption.
Qed.

Lemma in_lang_alt (r1 r2 : regex) (s : string) :
  in_lang (RAlt r1 r2) s <-> in_lang r1 s \/ in_lang r2 s.
Proof.
  split.
  - intros H. inversion H; subst; auto.
  - intros [H|H]; [apply LAltL | apply LAltR]; exact H.
Qed.

Lemma in_lang_lit (t s : string) : in_lang (lit t) s <-> s = t.
Proof.
  revert s. induction t as [|c t IH]; intros s; cbn.
  - split; intros H; [inversion H; reflexivity | subst; constructor].
  - rewrite in_lang_cat. split.
    + intros (s1 & s2 & -> & H1 & H2). apply IH in H2. subst s2.
      inversion H1 as [|? x Hx| | | | |]; subst.
      apply Ascii.eqb_eq in Hx. subst x. reflexivity.
    + intros ->. exists (String c EmptyString), t.
      split; [reflexivity|]. split; [|apply IH; reflexivity].
      constructor. apply Ascii.eqb_refl.
Qed.

Lemma in_lang_char (p : ascii -> bool) (s : string) :
  in_lang (RChar p) s <-> exists c, s = String c EmptyString /\ p c = true.
Proof.
  split.
  - intros H. inversion H; subst. eauto.
  - intros (c & -> & Hc). constructor. exact Hc.
Qed.

Lemma in_lang_star_class (p : ascii -> bool) (s : string) :
  in_lang (RStar (RChar p)) s <-> all_chars p s = true.
Proof.
  split.
  - intros H. remember (RStar (RChar p)) as r eqn:Hr.
    induction H as [| | | | | |r0 s1 s2 H1 _ H2 IH2]; try discriminate; [reflexivity|].
    injection Hr as ->. inversion H1; subst. cbn.
    rewrite IH2 by reflexivity. rewrite andb_true_r. assumption.
  - induction s as [|c s IH]; cbn; intros H; [constructor|].
    apply andb_true_iff in H. destruct H as [Hc Hs].
    change (String c s) with (String c EmptyString ++ s)%string.
    constructor; [constructor; exact Hc | exact (IH Hs)].
Qed.

Lemma in_lang_plus_non_space (s : string) :
  in_lang (plus non_space) s <-> non_blank s = true.
Proof.
  unfold plus, non_space, non_blank. rewrite in_lang_cat. split.
  - intros (s1 & s2 & -> & H1 & H2).
    apply in_lang_char in H1. destruct H1 as (c & -> & Hc).
    apply in_lang_star_class in H2. cbn. rewrite Hc, H2. reflexivity.
  - intros H. apply andb_true_iff in H. destruct H as [Hne Hall].
    destruct s as [|c s]; [discriminate|].
    cbn in Hall. apply andb_true_iff in Hall. destruct Hall as [Hc Hs].
    exists (String c EmptyString), s. split; [reflexivity|].
    split; [constructor; exact Hc | apply in_lang_star_class; exact Hs].
Qed.

(** X19.  The strings the email pattern accepts: a non-blank local part, an at
    sign, a non-blank domain, a dot and a non-blank last part, where
    non-blank means non-empty and without white space; a newline may end
    the string.  The parts may themselves hold at signs and dots.  A value
    that is not a string makes the search raise [TypeError]. *)
Theorem email_accepted_iff (s : string) :
  (search_email (VStr s) = Ok true <->
   exists local domain last,
     non_blank local = true /\ non_blank domain = true /\ non_blank last = true /\
     (s = (local ++ "@" ++ domain ++ "." ++ last)%string \/
      s = (local ++ "@" ++ domain ++ "." ++ last ++ String newline EmptyString)%string)) /\
  (forall v, (forall text, v <> VStr text) -> search_email v = Raise TypeError).
Proof.
  split.
  2:{ intros v Hv. destruct v; try reflexivity. exfalso. exact (Hv s0 eq_refl). }
  assert (Hbody : forall t,
             in_lang EMAIL_PATTERN t <->
             exists local domain last,
               non_blank local = true /\ non_blank domain = true /\
               non_blank last = true /\
               t = (local ++ "@" ++ domain ++ "." ++ last)%string).
  { intros t. unfold EMAIL_PATTERN. split.
    - intros H.
      apply in_lang_cat in H. destruct H as (a & r1 & -> & Ha & H).
      apply in_lang_cat in H. destruct H as (at_ & r2 & -> & Hat & H).
      apply in_lang_cat in H. destruct H as (b & r3 & -> & Hb & H).
      apply in_lang_cat in H. destruct H as (dot_ & c & -> & Hdot & Hc).
      apply in_lang_lit in Hat, Hdot. subst at_ dot_.
      apply in_lang_plus_non_space in Ha, Hb, Hc.
      exists a, b, c. auto.
    - intros (a & b & c & Ha & Hb & Hc & ->).
      apply in_lang_plus_non_space in Ha, Hb, Hc.
      apply in_lang_cat. exists a, ("@" ++ b ++ "." ++ c)%string.
      split; [reflexivity|]. split; [exact Ha|].
      apply in_lang_cat. exists "@", (b ++ "." ++ c)%string.
      split; [reflexivity|]. split; [apply in_lang_lit; reflexivity|].
      apply in_lang_cat. exists b, ("." ++ c)%string.
      split; [reflexivity|]. split; [exact Hb|].
      apply in_lang_cat. exists ".", c.
      split; [reflexivity|]. split; [apply in_lang_lit; reflexivity | exact Hc]. }
  cbn [search_email]. split.
  - intros H. injection H as H. apply re_search_anchored_spec in H.
    destruct H as [H | (t & -> & H)];
      apply Hbody in H; destruct H as (a & b & c & Ha & Hb & Hc & ->);
      exists a, b, c; repeat split; auto.
    right. rewrite !string_app_assoc. reflexivity.
  - intros (a & b & c & Ha & Hb & Hc & Hs). f_equal.
    apply re_search_anchored_spec. destruct Hs as [-> | ->].
    + left. apply Hbody. exists a, b, c. auto.
    + right. exists (a ++ "@" ++ b ++ "." ++ c)%string.
      split; [rewrite !string_app_assoc; reflexivity|].
      apply Hbody. exists a, b, c. auto.
Qed.

(** X17.  The file names the pattern of [main] lets through: those that hold,
    anywhere, the text [transactions/], then any text without a newline, a
    hyphen, one of the three kinds, any one character but a newline (the
    dot of the pattern is not escaped), and [toml]. *)
Theorem file_name_accepted_iff (file : string) :
  re_search FILE_NAME_PATTER file = true <->
  exists before name kind c after,
    one_line name = true /\
    In kind ["validator"; "bond"; "account"] /\
    c <> newline /\
    file = (before ++ "transactions/" ++ name ++ "-" ++ kind ++ String c "toml"
              ++ after)%string.
Proof.
  rewrite re_search_spec. unfold FILE_NAME_PATTER. split.
  - intros (before & found & after & -> & H).
    apply in_lang_cat in H. destruct H as (s1 & r1 & -> & H1 & H).
    apply in_lang_cat in H. destruct H as (name & r2 & -> & Hname & H).
    apply in_lang_cat in H. destruct H as (s3 & r3 & -> & H3 & H).
    apply in_lang_cat in H. destruct H as (kind & r4 & -> & Hkind & H).
    apply in_lang_cat in H. destruct H as (s5 & s6 & -> & H5 & H6).
    apply in_lang_lit in H1, H3, H6. subst s1 s3 s6.
    apply in_lang_star_class in Hname.
    apply in_lang_char in H5. destruct H5 as (c & -> & Hc).
    exists before, name, kind, c, after. repeat split.
    + exact Hname.
    + apply in_lang_alt in Hkind. rewrite in_lang_alt, !in_lang_lit in Hkind.
      cbn. intuition auto.
    + intros ->. rewrite Ascii.eqb_refl in Hc. discriminate.
    + rewrite !string_app_assoc. reflexivity.
  - intros (before & name & kind & c & after & Hname & Hkind & Hc & ->).
    exists before, ("transactions/" ++ name ++ "-" ++ kind ++ String c "toml")%string, after.
    split; [rewrite !string_app_assoc; reflexivity|].
    apply in_lang_cat. exists "transactions/", (name ++ "-" ++ kind ++ String c "toml")%string.
    split; [reflexivity|]. split; [apply in_lang_lit; reflexivity|].
    apply in_lang_cat. exists name, ("-" ++ kind ++ String c "toml")%string.
    split; [reflexivity|]. split; [apply in_lang_star_class; exact Hname|].
    apply in_lang_cat. exists "-", (kind ++ String c "toml")%string.
    split; [reflexivity|]. split; [apply in_lang_lit; reflexivity|].
    apply in_lang_cat. exists kind, (String c "toml").
    split; [reflexivity|]. split.
    + cbn in Hkind. destruct Hkind as [<- | [<- | [<- | []]]].
      * apply LAltL. apply in_lang_lit. reflexivity.
      * apply LAltR, LAltL. apply in_lang_lit. reflexivity.
      * apply LAltR, LAltR. apply in_lang_lit. reflexivity.
    + apply in_lang_cat. exists (String c EmptyString), "toml".
      split; [reflexivity|]. split; [|apply in_lang_lit; reflexivity].
      constructor. destruct (Ascii.eqb c newline) eqn:E; [|reflexivity].
      apply Ascii.eqb_eq in E. contradiction.
Qed.

Lemma split_aux_nonempty (sep : ascii) (s acc : string) :
  exists p r, split_aux sep s acc = p :: r.
Proof.
  revert acc. induction s as [|c s IH]; intros acc; cbn; [eauto|].
  destruct (Ascii.eqb c sep); [eauto | apply IH].
Qed.

Lemma split_aux_two (sep : ascii) (s1 s2 acc : string) :
  exists p q r, split_aux sep (s1 ++ String sep s2) acc = p :: q :: r.
Proof.
  revert acc. induction s1 as [|c s1 IH]; intros acc; cbn.
  - rewrite Ascii.eqb_refl.
    destruct (split_aux_nonempty sep s2 EmptyString) as (q & r & ->). eauto.
  - destruct (Ascii.eqb c sep).
    + destruct (IH EmptyString) as (p & q & r & ->). eauto.
    + apply IH.
Qed.

(** X18.  A file name that passed the pattern test holds a slash, so the second
    piece that [main] takes from [file.split('/')] exists: the subscript
    cannot raise [IndexError]. *)
Theorem matching_file_has_second_piece (file : string) :
  re_search FILE_NAME_PATTER file = true ->
  exists second, nth_error (split "/"%char file) 1 = Some second.
Proof.
  intros H. apply re_search_spec in H. destruct H as (before & found & after & -> & H).
  unfold FILE_NAME_PATTER in H.
  apply in_lang_cat in H. destruct H as (s1 & rest & -> & H1 & _).
  apply in_lang_lit in H1. subst s1. unfold split.
  replace (before ++ ("transactions/" ++ rest) ++ after)%string
    with ((before ++ "transactions") ++ String "/"%char (rest ++ after))%string.
  - destruct (split_aux_two "/"%char (before ++ "transactions") (rest ++ after) EmptyString)
      as (p & q & r & ->).
    exists q. reflexivity.
  - rewrite !string_app_assoc. reflexivity.
Qed.

(** ** Flags and alias *)

Lemma lower_char_idempotent (c : ascii) : lower_char (lower_char c) = lower_char c.
Proof.
  destruct c as [b0 b1 b2 b3 b4 b5 b6 b7].
  destruct b0, b1, b2, b3, b4, b5, b6, b7; reflexivity.
Qed.

Lemma lower_idempotent (s : string) : lower (lower s) = lower s.
Proof.
  induction s as [|c s IH]; cbn; [reflexivity|].
  rewrite lower_char_idempotent, IH. reflexivity.
Qed.

Section GateFacts.
Context `{RT : Runtime}.

(** X16.  The alias test of [main] ignores the case of the alias: an iteration
    behaves the same for an alias and for its lower-case form. *)
Theorem alias_case_ignored
    (w : world) (alias file : string) (cv cb ca : option string) :
  main_body w (lower alias) cv cb ca file = main_body w alias cv cb ca file.
Proof. unfold main_body. rewrite lower_idempotent. reflexivity. Qed.

(** X12.  A flag enables its track when it is set to any non-empty text, the
    text [false] included, and the account track is tried first: a file
    whose name holds [-account.toml] goes to the account validator whenever
    [CAN_ADD_ACCOUNTS] is a non-empty string, whatever else the name holds
    and whatever the other two flags are. *)
Theorem account_track_taken
    (w : world) (file flag : string) (cv cb : option string)
    (bal : dict) (token nam : value) :
  toml_load w balances_path = Some bal ->
  lookup "token" bal = Some token ->
  py_getitem token (VStr "NAM") = Ok nam ->
  is_substring "-account.toml" file = true ->
  flag <> "" ->
  validate_toml w file cv cb (Some flag) =
  (EvOpen balances_path :: fst (track_steps w file Account nam),
   snd (track_steps w file Account nam)).
Proof.
  intros Hbal Htok Hnam Hname Hflag.
  apply (validate_toml_on_track w file cv cb (Some flag) Account bal token nam
           Hbal Htok Hnam).
  unfold track_of. rewrite Hname. cbn [env_truthy andb].
  destruct (String.eqb flag "") eqn:E; [|reflexivity].
  apply String.eqb_eq in E. contradiction.
Qed.

End GateFacts.

(** ** The properties above on the example documents *)

Lemma empty_sequence_accepted_witness :
  @check_if_validator_is_valid reference_runtime
    (VDict [("established_account", VList []); ("validator_account", VList [])])
  = Ok true.
Proof.
  destruct (@empty_sequence_accepted reference_runtime
              [("established_account", VList []); ("validator_account", VList [])]
              (VList []) eq_refl) as (_ & H & _).
  exact (H eq_refl eq_refl eq_refl).
Defined.

Lemma missing_sequence_raises_witness :
  @check_if_account_is_valid reference_runtime (VDict (example_bonds (VStr "100")))
  = Raise KeyError /\
  @check_if_validator_is_valid reference_runtime (VDict (example_bonds (VStr "100")))
  = Raise KeyError.
Proof.
  destruct (@missing_sequence_raises reference_runtime (example_bonds (VStr "100")))
    as (H & _).
  exact (H eq_refl).
Defined.

Lemma missing_field_rejected_witness :
  @account_body reference_runtime
    (VDict [("vp", VStr "vp_user"); ("public_keys", VList [])]) = ret_false.
Proof.
  destruct (@missing_field_rejected reference_runtime
              [("vp", VStr "vp_user"); ("public_keys", VList [])] "threshold" eq_refl)
    as (H & _).
  apply H. cbn. auto.
Defined.

Lemma account_entry_verdict_witness :
  @account_body reference_runtime
    (VDict [("vp", VStr "vp_user"); ("threshold", VInt 0);
            ("public_keys", VList [VStr "tnam15feryxhrcqc5c7"])]) = ret_false.
Proof.
  exact (@account_entry_verdict reference_runtime
           [("vp", VStr "vp_user"); ("threshold", VInt 0);
            ("public_keys", VList [VStr "tnam15feryxhrcqc5c7"])]
           (VStr "vp_user") 0 [VStr "tnam15feryxhrcqc5c7"] [Some "tnam"]
           eq_refl eq_refl eq_refl
           ltac:(repeat constructor)).
Defined.

Lemma nan_threshold_accepted_witness :
  @account_body reference_runtime (VDict nan_threshold_entry) = next.
Proof.
  exact (@nan_threshold_accepted reference_runtime nan_threshold_entry (VFloat nan)
           (NFloat nan) [] eq_refl eq_refl eq_refl (Forall_nil _) eq_refl
           (or_intror (ex_intro _ nan (conj eq_refl eq_refl)))).
Defined.

Lemma validator_check_extends_account_check_witness :
  @check_if_validator_is_valid reference_runtime
    (VDict [("established_account", VList [empty_entry]);
            ("validator_account", VList [example_validator (VFloat 1) (VFloat 1)])])
  = Ok false.
Proof.
  destruct (@validator_check_extends_account_check reference_runtime
              (VDict [("established_account", VList [empty_entry]);
                      ("validator_account",
                       VList [example_validator (VFloat 1) (VFloat 1)])]))
    as (H & _).
  exact (H eq_refl).
Defined.

Lemma entries_judged_separately_witness :
  @check_if_account_is_valid reference_runtime
    (VDict [("established_account", VList ([example_account] ++ [empty_entry]))])
  = Ok true <->
  @check_if_account_is_valid reference_runtime
    (VDict [("established_account", VList [example_account])]) = Ok true /\
  @check_if_account_is_valid reference_runtime
    (VDict [("established_account", VList [empty_entry])]) = Ok true.
Proof.
  destruct (@entries_judged_separately reference_runtime [example_account] [empty_entry])
    as (H & _).
  exact (H [("established_account", VList ([example_account] ++ [empty_entry]))]
           [("established_account", VList [example_account])]
           [("established_account", VList [empty_entry])] eq_refl eq_refl eq_refl).
Defined.

Lemma validator_entry_verdict_witness :
  @validator_body reference_runtime (example_validator (VStr "0.05") (VStr "2")) = ret_false.
Proof.
  exact (@validator_entry_verdict reference_runtime
           (example_validator_fields (VStr "0.05") (VStr "2"))
           (VStr "vp_user") (VStr "0.05") (VStr "2") (VStr "tnam1mr8wrerwec5m4f")
           0.05%float 2%float "alice@example.org" (Some "tnam")
           (example_validator_fields_present _ _) eq_refl eq_refl eq_refl).
Defined.

Lemma empty_signatures_rejected_witness :
  @bond_body reference_runtime example_nam_balances
    (VDict [("source", VStr "tkpnam1zgj6f8ntj5hlwz"); ("validator", VInt 7);
            ("amount", VStr "a hundred"); ("signatures", VList [])]) = ret_false.
Proof.
  destruct (@empty_signatures_rejected reference_runtime
              [("source", VStr "tkpnam1zgj6f8ntj5hlwz"); ("validator", VInt 7);
               ("amount", VStr "a hundred"); ("signatures", VList [])] eq_refl)
    as (H & _).
  apply H. repeat constructor.
Defined.

Lemma off_track_file_passed_over_witness :
  @validate_toml reference_runtime example_world "transactions/alice-bond.toml"
    (Some "true") (Some "") (Some "true")
  = ([EvOpen balances_path], Ok (VBool false)).
Proof.
  apply (@off_track_file_passed_over reference_runtime example_world
           "transactions/alice-bond.toml" (Some "true") (Some "") (Some "true")
           example_balances (VDict [("NAM", example_nam_balances)]) example_nam_balances);
    reflexivity.
Defined.

Lemma balances_failure_is_fatal_witness :
  @validate_toml reference_runtime world_without_balances "README.md" None None None
  = ([EvOpen balances_path], Raise LoadError).
Proof.
  destruct (@balances_failure_is_fatal reference_runtime world_without_balances
              "README.md" None None None) as (H & _).
  exact (H eq_refl).
Defined.

Lemma main_preconditions_fatal_witness :
  @main reference_runtime world_with_deletion = ([EvGit "DM"], Raise (SystemExit 1)).
Proof.
  destruct (@main_preconditions_fatal reference_runtime world_with_deletion) as (H & _).
  apply H. right. discriminate.
Defined.

Lemma run_stops_at_first_exception_witness :
  io_for_each
    (@main_body reference_runtime example_world "Alice" (Some "true") (Some "true")
       (Some "true"))
    (["transactions/alice-account.toml"] ++
     "transactions/alice-validator.toml" :: ["transactions/alice-bond.toml"])%list =
  io_for_each
    (@main_body reference_runtime example_world "Alice" (Some "true") (Some "true")
       (Some "true"))
    (["transactions/alice-account.toml"] ++ ["transactions/alice-validator.toml"])%list.
Proof.
  destruct (@run_stops_at_first_exception reference_runtime example_world "Alice"
              (Some "true") (Some "true") (Some "true")
              ["transactions/alice-account.toml"] ["transactions/alice-bond.toml"]
              "transactions/alice-validator.toml" TypeError) as (H & _).
  - vm_compute. reflexivity.
  - exact H.
Defined.

Lemma rejected_file_does_not_stop_run_witness :
  snd (@main_body reference_runtime example_world "Alice" None None (Some "true")
         "transactions/alice-rejected-account.toml") = Ok tt.
Proof.
  apply (@rejected_file_does_not_stop_run reference_runtime example_world "Alice"
           "transactions/alice-rejected-account.toml" "alice-rejected-account.toml"
           None None (Some "true") Account example_balances
           [("established_account", VList [empty_entry])]
           (VDict [("NAM", example_nam_balances)]) example_nam_balances false);
    vm_compute; reflexivity.
Defined.

Lemma matching_file_has_second_piece_witness :
  exists second,
    nth_error (split "/"%char "transactions/alice-account.toml") 1 = Some second.
Proof.
  apply (matching_file_has_second_piece "transactions/alice-account.toml").
  vm_compute. reflexivity.
Defined.

Lemma account_track_taken_witness :
  printed (fst (@validate_toml reference_runtime example_world
                  "transactions/alice-account.toml-bond.toml" None (Some "true")
                  (Some "false")))
  = [not_valid "transactions/alice-account.toml-bond.toml"].
Proof.
  rewrite (@account_track_taken reference_runtime example_world
             "transactions/alice-account.toml-bond.toml" "false" None (Some "true")
             example_balances (VDict [("NAM", example_nam_balances)])
             example_nam_balances eq_refl eq_refl eq_refl eq_refl).
  - reflexivity.
  - discriminate.
Defined.
